(** * Interleaved thinking engine: a shallow embedding of [lib.ts]

    The development follows the TypeScript source class by class:
    [ToolCallManager], [StateManager] and [InterleavedThinkingServer].
    Mutable fields become fields of a [Session] record threaded through a
    small state-and-exception monad; [throw] and [try]/[catch] become the
    [Throw] completion and [try_catch]. *)

From Stdlib Require Import ZArith QArith Qminmax Qround Qpower Lia Lqa List Bool Ascii String.
From Stdlib Require Import DecimalString.
From stdpp Require Import base option strings gmap.

#[local] Set Warnings "-register-all".

Local Open Scope string_scope.
Local Open Scope Z_scope.

(** ** JavaScript strings and numbers *)

Module Js.

(** [s.includes(search)] *)
Fixpoint includes (s search : string) : bool :=
  String.prefix search s
  || match s with
     | EmptyString => false
     | String _ rest => includes rest search
     end.

(** Conversion of an integral number to a string, as in a template
    literal: its decimal digits, which is what JavaScript prints for the
    integers of magnitude up to 2^53 (a larger number is printed with the
    fewest digits that tell it from its neighbours, and from 10^21 on
    with an exponent). *)
Definition ofZ (z : Z) : string := NilZero.string_of_int (Z.to_int z).

(** Truthiness of the values the engine branches on. A JavaScript
    [number] is modelled as a rational, the binary64 numbers being the
    rationals of [isDouble] below (NaN and the infinities, which JSON
    cannot carry, are left out); an absent property is [None]. *)
Definition number := Q.

(** The numbers of JavaScript are the binary64 numbers. [exponent q] is
    the integer [e] with [2^e <= q < 2^(e+1)] for a positive [q]. *)
Definition exponent (q : Q) : Z :=
  if Qle_bool 1 q then Z.log2 (Qfloor q) else - Z.log2_up (Qceiling (/ q)).

Definition roundHalfEven (q : Q) : Z :=
  let f := Qfloor q in
  match (q - inject_Z f ?= 1 # 2)%Q with
  | Lt => f
  | Gt => f + 1
  | Eq => if Z.even f then f else f + 1
  end.

(** The binary64 number nearest to a positive real, ties to the even
    significand: 53 significant bits, and below [2^-1022] the fixed
    spacing [2^-1074] of the subnormal numbers. *)
Definition nearest (q : Q) : Q :=
  let ulp := (2 ^ (Z.max (exponent q) (-1022) - 52))%Q in
  (inject_Z (roundHalfEven (q / ulp)) * ulp)%Q.

(** The result of an arithmetic operation: the exact result rounded to
    the nearest binary64 number (overflow to an infinity is left out with
    the infinities). *)
Definition toDouble (q : Q) : number :=
  let q := Qred q in
  match (q ?= 0)%Q with
  | Eq => 0%Q
  | Gt => nearest q
  | Lt => (- nearest (- q))%Q
  end.

(** The rationals that are JavaScript numbers. *)
Definition isDouble (q : Q) : bool := Qeq_bool (toDouble q) q.

Definition truthy_num (v : option number) : bool :=
  match v with
  | Some q => negb (Qeq_bool q 0)
  | None => false
  end.

Definition truthy_str (v : option string) : bool :=
  match v with
  | Some s => negb (String.eqb s EmptyString)
  | None => false
  end.

(** [a < b] and [a > b]; a comparison with [undefined] is false. *)
Definition lt (a b : option number) : bool :=
  match a, b with
  | Some x, Some y => match x ?= y with Lt => true | _ => false end
  | _, _ => false
  end%Q.

Definition gt (a b : option number) : bool := lt b a.

(** [a - 1], the difference rounded as the subtraction of binary64
    numbers rounds it; [undefined - 1] is NaN, rendered as [None]. *)
Definition pred (a : option number) : option number :=
  match a with
  | Some x => Some (toDouble (x - 1))
  | None => None
  end.

(** [a === n] where [n] is a number or NaN ([None]): NaN equals nothing,
    and neither does an absent property. *)
Definition strict_eq (a n : option number) : bool :=
  match a, n with
  | Some x, Some y => Qeq_bool x y
  | _, _ => false
  end.

(** Delay actually used by [setTimeout]: values below 1 or above
    2^31-1 are replaced by 1. *)
Definition timerDelay (ms : Z) : Z :=
  if (ms <? 1) || (2147483647 <? ms) then 1 else ms.

(** The array index a property name stands for, if any: the name is the
    decimal form, without sign or leading zero, of an integer below
    2^32 - 1. *)
Fixpoint decimal (s : string) (acc : N) : option N :=
  match s with
  | EmptyString => Some acc
  | String c rest =>
      let code := N_of_ascii c in
      if (48 <=? code)%N && (code <=? 57)%N
      then decimal rest (10 * acc + (code - 48))%N
      else None
  end.

Definition arrayIndex (name : string) : option N :=
  match name with
  | EmptyString => None
  | String c rest =>
      if Ascii.eqb c "0" && negb (String.eqb rest EmptyString) then None
      else
        match decimal name 0 with
        | Some i => if (i <? 4294967295)%N then Some i else None
        | None => None
        end
  end.

Fixpoint insertIndex (i : N) (name : string) (sorted : list (N * string))
  : list (N * string) :=
  match sorted with
  | [] => [(i, name)]
  | (j, other) :: rest =>
      if (i <? j)%N then (i, name) :: sorted else (j, other) :: insertIndex i name rest
  end.

Fixpoint indexNames (names : list string) : list (N * string) :=
  match names with
  | [] => []
  | name :: rest =>
      match arrayIndex name with
      | Some i => insertIndex i name (indexNames rest)
      | None => indexNames rest
      end
  end.

(** [Object.keys(o)] for an object whose own properties were created in
    the order [names]: the array indices in ascending order, then the
    other names in the order of their creation. *)
Definition objectKeys (names : list string) : list string :=
  (map snd (indexNames names)
   ++ List.filter (fun name => negb (bool_decide (is_Some (arrayIndex name)))) names)%list.

End Js.

(** ** JSON values and [JSON.stringify] *)

Module Json.

Inductive json : Type :=
| JNull
| JBool (b : bool)
| JNum (n : Z)
| JStr (s : string)
| JArr (items : list json)
| JObj (fields : list (string * json)).

Definition quote : ascii := "034"%char.
Definition backslash : ascii := "092"%char.

Definition hexDigit (n : N) : ascii :=
  if (n <? 10)%N then ascii_of_N (48 + n) else ascii_of_N (87 + n).

Definition escapeChar (c : ascii) : string :=
  let n := N_of_ascii c in
  if Ascii.eqb c quote then String backslash (String quote EmptyString)
  else if Ascii.eqb c backslash then String backslash (String backslash EmptyString)
  else if (n =? 8)%N then String backslash "b"
  else if (n =? 9)%N then String backslash "t"
  else if (n =? 10)%N then String backslash "n"
  else if (n =? 12)%N then String backslash "f"
  else if (n =? 13)%N then String backslash "r"
  else if (n <? 32)%N then
    String backslash
      (String "u" (String "0" (String "0"
        (String (hexDigit (n / 16)) (String (hexDigit (n mod 16)) EmptyString)))))
  else String c EmptyString.

Fixpoint escape (s : string) : string :=
  match s with
  | EmptyString => EmptyString
  | String c rest => escapeChar c ++ escape rest
  end.

Definition quoted (s : string) : string :=
  String quote (escape s ++ String quote EmptyString).

Definition commaSep (parts : list string) : string :=
  String.concat "," parts.

(** Compact serialisation, properties in enumeration order. *)
Fixpoint stringify (v : json) : string :=
  match v with
  | JNull => "null"
  | JBool true => "true"
  | JBool false => "false"
  | JNum n => Js.ofZ n
  | JStr s => quoted s
  | JArr items => "[" ++ commaSep (List.map stringify items) ++ "]"
  | JObj fields =>
      "{" ++ commaSep (List.map (fun kv => quoted (fst kv) ++ ":" ++ stringify (snd kv)) fields)
          ++ "}"
  end.

End Json.

Export Json(json, JNull, JBool, JNum, JStr, JArr, JObj).

(** ** [Date.prototype.toISOString] *)

Module Clock.

Fixpoint zeros (n : nat) : string :=
  match n with
  | O => EmptyString
  | S k => String "0" (zeros k)
  end.

(** Decimal digits of a non-negative number, left-padded to [width]. *)
Definition pad (width : nat) (n : Z) : string :=
  let digits := Js.ofZ n in
  zeros (width - String.length digits) ++ digits.

(** Year, month and day of a count of days since 1970-01-01 in the
    proleptic Gregorian calendar. *)
Definition civil (days : Z) : Z * Z * Z :=
  let z := days + 719468 in
  let era := z / 146097 in
  let doe := z mod 146097 in
  let yoe := (doe - doe / 1460 + doe / 36524 - doe / 146096) / 365 in
  let doy := doe - (365 * yoe + yoe / 4 - yoe / 100) in
  let mp := (5 * doy + 2) / 153 in
  let d := doy - (153 * mp + 2) / 5 + 1 in
  let m := if mp <? 10 then mp + 3 else mp - 9 in
  let y := yoe + era * 400 + (if m <=? 2 then 1 else 0) in
  (y, m, d).

Definition year (y : Z) : string :=
  if (0 <=? y) && (y <=? 9999) then pad 4 y
  else if y <? 0 then "-" ++ pad 6 (- y)
  else "+" ++ pad 6 y.

Definition toISOString (ms : Z) : string :=
  let '(y, m, d) := civil (ms / 86400000) in
  let t := ms mod 86400000 in
  year y ++ "-" ++ pad 2 m ++ "-" ++ pad 2 d ++ "T"
    ++ pad 2 (t / 3600000) ++ ":" ++ pad 2 (t / 60000 mod 60) ++ ":"
    ++ pad 2 (t / 1000 mod 60) ++ "." ++ pad 3 (t mod 1000) ++ "Z".

End Clock.

(** ** Data model *)

Record ToolCallMetadata := {
  timeout : option Z;
  retryCount : option Z;
  priority : option string
}.

Record ToolCallData := {
  toolName : string;
  parameters : list (string * json);
  metadata : option ToolCallMetadata
}.

Record ErrorData := {
  type : string;
  message : string;
  recoveryStrategy : option string
}.

Record ToolResultData := {
  resultToolName : string;
  success : bool;
  result : option json;
  error : option ErrorData;
  executionTime : Z;
  timestamp : string
}.

(** An incoming step. Properties the validation inspects at run time are
    optional here even where the TypeScript interface requires them. *)
Record InterleavedStepData := {
  thought : string;
  stepNumber : option Js.number;
  totalSteps : option Js.number;
  nextStepNeeded : option bool;
  isRevision : option bool;
  revisesStep : option Js.number;
  branchFromStep : option Js.number;
  branchId : option string;
  needsMoreSteps : option bool;
  phase : option string;
  toolCall : option ToolCallData;
  toolResult : option ToolResultData
}.

Record ToolCallRecord := {
  recordStepNumber : option Js.number;
  recordToolCall : ToolCallData;
  recordResult : ToolResultData
}.

Record Statistics := {
  statTotalSteps : nat;
  totalToolCalls : nat;
  successfulToolCalls : nat;
  failedToolCalls : nat;
  totalExecutionTime : Z
}.

Record StepHistory := {
  historySteps : list InterleavedStepData;
  historyBranches : list (string * list InterleavedStepData);
  historyToolCalls : list ToolCallRecord;
  statistics : Statistics
}.

Record ServerConfig := {
  maxToolCalls : Z;
  defaultTimeout : Z;
  disableLogging : bool;
  enableResultCache : bool;
  testMode : bool
}.

(** The argument of the server's constructor, [Partial<ServerConfig>]. *)
Record PartialServerConfig := {
  optMaxToolCalls : option Z;
  optDefaultTimeout : option Z;
  optDisableLogging : option bool;
  optEnableResultCache : option bool;
  optTestMode : option bool
}.

(** The object that is JSON-encoded into the text of a [ProcessResult]. *)
Record StepResponse := {
  responseStepNumber : option Js.number;
  responseTotalSteps : option Js.number;
  responseNextStepNeeded : option bool;
  responseBranches : list string;
  stepHistoryLength : nat;
  responsePhase : option string;
  responseToolResult : option (bool * Z)
}.

Inductive Payload : Type :=
| SuccessPayload (response : StepResponse)
| ErrorPayload (error : ErrorData) (status : string).

Record ProcessResult := {
  content : list (string * Payload);
  isError : option bool
}.

(** ** Exceptions and asynchronous executions *)

(** A thrown value: an [Error] instance with its message, or any other
    value, kept as what [String(value)] gives. *)
Inductive thrown : Type :=
| JsError (msg : string)
| JsValue (asString : string).

Definition instanceofError (e : thrown) : bool :=
  match e with
  | JsError _ => true
  | JsValue _ => false
  end.

(** [error instanceof Error ? error.message : String(error)] *)
Definition messageOf (e : thrown) : string :=
  match e with
  | JsError m => m
  | JsValue s => s
  end.

Inductive settled : Type :=
| Resolved (r : ToolResultData)
| Rejected (e : thrown).

(** A tool execution on a logical clock: the promise settles [duration]
    milliseconds after it was started, with [outcome]. *)
Record Execution := {
  duration : Z;
  outcome : settled
}.

(** [simulateToolExecution]: ten milliseconds of simulated work, then a
    successful result whose [executionTime] and [timestamp] are left for
    the caller to set. *)
Definition simulateToolExecution (toolCall : ToolCallData) : Execution :=
  {| duration := 10;
     outcome := Resolved
       {| resultToolName := toolName toolCall;
          success := true;
          result := Some (JObj [("message", JStr ("Mock result for " ++ toolName toolCall));
                                ("parameters", JObj (parameters toolCall))]);
          error := None;
          executionTime := 0;
          timestamp := EmptyString |} |}.

(** [Promise.race] of an execution against [createTimeoutPromise(timeout)]:
    the timer rejects first exactly when its delay is shorter than the
    execution; on a tie the execution, whose timer was armed first, wins.
    Timers are taken to fire exactly after their delay. The result is
    the elapsed time with the settled value. *)
Definition race (run : Execution) (timeout : Z) : Z * settled :=
  if Js.timerDelay timeout <? duration run
  then (Js.timerDelay timeout,
        Rejected (JsError ("Tool execution timeout after " ++ Js.ofZ timeout ++ "ms")))
  else (duration run, outcome run).

(** ** Session state *)

Module ToolCallManager.
Record t := {
  maxToolCalls : Z;
  defaultTimeout : Z;
  enableCache : bool;
  callCount : Z;
  resultCache : gmap string ToolResultData;
  mockResults : option (gmap string ToolResultData)
}.
End ToolCallManager.

Module StateManager.
Record t := {
  steps : list InterleavedStepData;
  branches : list (string * list InterleavedStepData);
  toolCalls : list ToolCallRecord
}.
End StateManager.

(** One server object together with the two pieces of its environment
    the engine observes: the wall clock read by [Date.now()] and the log
    of tool executions that were actually started. *)
Record Session := {
  toolCallManager : ToolCallManager.t;
  stateManager : StateManager.t;
  config : ServerConfig;
  clock : Z;
  executed : list ToolCallData
}.

(** ** The state-and-exception monad *)

Inductive completion (A : Type) : Type :=
| Return (a : A)
| Throw (e : thrown).
Arguments Return {A} a.
Arguments Throw {A} e.

Definition M (A : Type) : Type := Session -> completion A * Session.

Definition ret {A} (a : A) : M A := fun s => (Return a, s).

Definition throw {A} (e : thrown) : M A := fun s => (Throw e, s).

Definition bind {A B} (c : M A) (k : A -> M B) : M B :=
  fun s =>
    match c s with
    | (Return a, s') => k a s'
    | (Throw e, s') => (Throw e, s')
    end.

(** [try { body } catch (error) { handler }]: what [body] wrote to the
    session before throwing stays written. *)
Definition try_catch {A} (body : M A) (handler : thrown -> M A) : M A :=
  fun s =>
    match body s with
    | (Return a, s') => (Return a, s')
    | (Throw e, s') => handler e s'
    end.

Definition gets {A} (f : Session -> A) : M A := fun s => (Return (f s), s).

Definition modify (f : Session -> Session) : M unit := fun s => (Return tt, f s).

Declare Scope js_scope.
Delimit Scope js_scope with js.
Notation "'let!' x ':=' c 'in' k" := (bind c (fun x => k))
  (at level 10, x name, c at level 200, k at level 200) : js_scope.
Notation "'do!' c 'in' k" := (bind c (fun _ => k))
  (at level 10, c at level 200, k at level 200) : js_scope.
Local Open Scope js_scope.

(** Field updates. *)

Definition withManager (f : ToolCallManager.t -> ToolCallManager.t) (s : Session) : Session :=
  {| toolCallManager := f (toolCallManager s);
     stateManager := stateManager s;
     config := config s;
     clock := clock s;
     executed := executed s |}.

Definition withState (f : StateManager.t -> StateManager.t) (s : Session) : Session :=
  {| toolCallManager := toolCallManager s;
     stateManager := f (stateManager s);
     config := config s;
     clock := clock s;
     executed := executed s |}.

Definition setCallCount (n : Z) (m : ToolCallManager.t) : ToolCallManager.t :=
  {| ToolCallManager.maxToolCalls := ToolCallManager.maxToolCalls m;
     ToolCallManager.defaultTimeout := ToolCallManager.defaultTimeout m;
     ToolCallManager.enableCache := ToolCallManager.enableCache m;
     ToolCallManager.callCount := n;
     ToolCallManager.resultCache := ToolCallManager.resultCache m;
     ToolCallManager.mockResults := ToolCallManager.mockResults m |}.

Definition setResultCache (c : gmap string ToolResultData) (m : ToolCallManager.t)
  : ToolCallManager.t :=
  {| ToolCallManager.maxToolCalls := ToolCallManager.maxToolCalls m;
     ToolCallManager.defaultTimeout := ToolCallManager.defaultTimeout m;
     ToolCallManager.enableCache := ToolCallManager.enableCache m;
     ToolCallManager.callCount := ToolCallManager.callCount m;
     ToolCallManager.resultCache := c;
     ToolCallManager.mockResults := ToolCallManager.mockResults m |}.

Definition setMockResults (r : option (gmap string ToolResultData)) (m : ToolCallManager.t)
  : ToolCallManager.t :=
  {| ToolCallManager.maxToolCalls := ToolCallManager.maxToolCalls m;
     ToolCallManager.defaultTimeout := ToolCallManager.defaultTimeout m;
     ToolCallManager.enableCache := ToolCallManager.enableCache m;
     ToolCallManager.callCount := ToolCallManager.callCount m;
     ToolCallManager.resultCache := ToolCallManager.resultCache m;
     ToolCallManager.mockResults := r |}.

Definition setPhase (p : option string) (i : InterleavedStepData) : InterleavedStepData :=
  {| thought := thought i; stepNumber := stepNumber i; totalSteps := totalSteps i;
     nextStepNeeded := nextStepNeeded i; isRevision := isRevision i;
     revisesStep := revisesStep i; branchFromStep := branchFromStep i;
     branchId := branchId i; needsMoreSteps := needsMoreSteps i;
     phase := p; toolCall := toolCall i; toolResult := toolResult i |}.

Definition setTotalSteps (n : option Js.number) (i : InterleavedStepData)
  : InterleavedStepData :=
  {| thought := thought i; stepNumber := stepNumber i; totalSteps := n;
     nextStepNeeded := nextStepNeeded i; isRevision := isRevision i;
     revisesStep := revisesStep i; branchFromStep := branchFromStep i;
     branchId := branchId i; needsMoreSteps := needsMoreSteps i;
     phase := phase i; toolCall := toolCall i; toolResult := toolResult i |}.

Definition setToolResult (r : option ToolResultData) (i : InterleavedStepData)
  : InterleavedStepData :=
  {| thought := thought i; stepNumber := stepNumber i; totalSteps := totalSteps i;
     nextStepNeeded := nextStepNeeded i; isRevision := isRevision i;
     revisesStep := revisesStep i; branchFromStep := branchFromStep i;
     branchId := branchId i; needsMoreSteps := needsMoreSteps i;
     phase := phase i; toolCall := toolCall i; toolResult := r |}.

(** [{...result, executionTime, timestamp}] *)
Definition stamp (r : ToolResultData) (elapsed : Z) (iso : string) : ToolResultData :=
  {| resultToolName := resultToolName r;
     success := success r;
     result := result r;
     error := error r;
     executionTime := elapsed;
     timestamp := iso |}.

(** ** class ToolCallManager *)

(** The test the [catch] block of [executeToolCall] makes twice:
    [error instanceof Error && error.message.includes("timeout")]. *)
Definition indicatesTimeout (e : thrown) : bool :=
  instanceofError e && Js.includes (messageOf e) "timeout".

Definition getCacheKey (toolCall : ToolCallData) : string :=
  toolName toolCall ++ ":" ++ Json.stringify (JObj (parameters toolCall)).

Definition canExecuteToolCall (m : ToolCallManager.t) : bool :=
  ToolCallManager.callCount m <? ToolCallManager.maxToolCalls m.

(** [this.mockResults ? this.mockResults.get(key) : undefined] *)
Definition mockFor (m : ToolCallManager.t) (toolCall : ToolCallData)
  : option ToolResultData :=
  match ToolCallManager.mockResults m with
  | Some mocks => mocks !! getCacheKey toolCall
  | None => None
  end.

(** [this.enableCache ? this.resultCache.get(key) : undefined] *)
Definition cachedFor (m : ToolCallManager.t) (toolCall : ToolCallData)
  : option ToolResultData :=
  if ToolCallManager.enableCache m
  then ToolCallManager.resultCache m !! getCacheKey toolCall
  else None.

(** [toolCall.metadata?.timeout || this.defaultTimeout] *)
Definition effectiveTimeout (m : ToolCallManager.t) (toolCall : ToolCallData) : Z :=
  match metadata toolCall with
  | Some md =>
      match timeout md with
      | Some t => if t =? 0 then ToolCallManager.defaultTimeout m else t
      | None => ToolCallManager.defaultTimeout m
      end
  | None => ToolCallManager.defaultTimeout m
  end.

Definition failureResult (toolCall : ToolCallData) (e : thrown) (elapsed : Z) (iso : string)
  : ToolResultData :=
  {| resultToolName := toolName toolCall;
     success := false;
     result := None;
     error := Some
       {| type := if indicatesTimeout e then "TimeoutError" else "ToolExecutionError";
          message := messageOf e;
          recoveryStrategy := Some
            (if indicatesTimeout e
             then "Use simpler tool or increase timeout"
             else "Retry with adjusted parameters or use alternative tool") |};
     executionTime := elapsed;
     timestamp := iso |}.

Section Engine.

(** The tool executor. The source wires in [simulateToolExecution]; the
    engine is stated over any executor so that its handling of rejected
    executions can be exercised. *)
Variable executor : ToolCallData -> Execution.

(** [await Promise.race([execute(toolCall), createTimeoutPromise(timeout)])]:
    the execution is started and logged, the clock moves on by the time
    the race took, and a rejection is rethrown. *)
Definition awaitRace (toolCall : ToolCallData) (timeout : Z) : M ToolResultData :=
  fun s =>
    let '(elapsed, v) := race (executor toolCall) timeout in
    let s' := {| toolCallManager := toolCallManager s;
                 stateManager := stateManager s;
                 config := config s;
                 clock := clock s + elapsed;
                 executed := executed s ++ [toolCall] |} in
    match v with
    | Resolved r => (Return r, s')
    | Rejected e => (Throw e, s')
    end.

Definition executeToolCall (toolCall : ToolCallData) : M ToolResultData :=
  let! allowed := gets (fun s => canExecuteToolCall (toolCallManager s)) in
  if negb allowed then throw (JsError "Tool call limit reached") else
  do! modify (withManager (fun m => setCallCount (ToolCallManager.callCount m + 1) m)) in
  let! startTime := gets clock in
  let! mockResult := gets (fun s => mockFor (toolCallManager s) toolCall) in
  match mockResult with
  | Some r => ret r
  | None =>
  let! cached := gets (fun s => cachedFor (toolCallManager s) toolCall) in
  match cached with
  | Some r => ret r
  | None =>
  let! timeout := gets (fun s => effectiveTimeout (toolCallManager s) toolCall) in
  try_catch
    (let! result := awaitRace toolCall timeout in
     let! enableCache := gets (fun s => ToolCallManager.enableCache (toolCallManager s)) in
     do! (if enableCache && success result
          then modify (withManager (fun m =>
                 setResultCache
                   (<[getCacheKey toolCall := result]> (ToolCallManager.resultCache m)) m))
          else ret tt) in
     let! now := gets clock in
     ret (stamp result (now - startTime) (Clock.toISOString now)))
    (fun error =>
     let! now := gets clock in
     ret (failureResult toolCall error (now - startTime) (Clock.toISOString now)))
  end
  end.

(** [ToolCallManager.reset] *)
Definition resetManager : M unit :=
  modify (withManager (fun m => setResultCache ∅ (setCallCount 0 m))).

(** [ToolCallManager.injectMockResults] *)
Definition injectMockResultsManager (mockResults : gmap string ToolResultData) : M unit :=
  modify (withManager (setMockResults (Some mockResults))).

(** ** class StateManager *)

(** Property names every object literal inherits from
    [Object.prototype]: reading [this.branches[id]] for one of them finds
    an inherited value, not an array. *)
Definition objectPrototypeKeys : list string :=
  ["constructor"; "__defineGetter__"; "__defineSetter__"; "hasOwnProperty";
   "__lookupGetter__"; "__lookupSetter__"; "isPrototypeOf"; "propertyIsEnumerable";
   "toString"; "valueOf"; "__proto__"; "toLocaleString"].

Definition inheritedKey (id : string) : bool :=
  existsb (String.eqb id) objectPrototypeKeys.

(** [if (!branches[id]) branches[id] = []; branches[id].push(step)] on
    own properties, kept in insertion order. *)
Fixpoint pushBranch (id : string) (step : InterleavedStepData)
    (branches : list (string * list InterleavedStepData))
  : list (string * list InterleavedStepData) :=
  match branches with
  | [] => [(id, [step])]
  | (k, l) :: rest =>
      if String.eqb k id then (k, (l ++ [step])%list) :: rest
      else (k, l) :: pushBranch id step rest
  end.

Definition addStep (step : InterleavedStepData) : M unit :=
  do! modify (withState (fun sm =>
        {| StateManager.steps := StateManager.steps sm ++ [step];
           StateManager.branches := StateManager.branches sm;
           StateManager.toolCalls := StateManager.toolCalls sm |})) in
  if Js.truthy_num (branchFromStep step) && Js.truthy_str (branchId step) then
    let id := default EmptyString (branchId step) in
    if inheritedKey id
    then throw (JsError "this.branches[step.branchId].push is not a function")
    else modify (withState (fun sm =>
        {| StateManager.steps := StateManager.steps sm;
           StateManager.branches := pushBranch id step (StateManager.branches sm);
           StateManager.toolCalls := StateManager.toolCalls sm |}))
  else ret tt.

Definition addToolCall (record : ToolCallRecord) : M unit :=
  modify (withState (fun sm =>
    {| StateManager.steps := StateManager.steps sm;
       StateManager.branches := StateManager.branches sm;
       StateManager.toolCalls := StateManager.toolCalls sm ++ [record] |})).

Definition calculateStatistics (sm : StateManager.t) : Statistics :=
  {| statTotalSteps := length (StateManager.steps sm);
     totalToolCalls := length (StateManager.toolCalls sm);
     successfulToolCalls :=
       length (filter (fun r => success (recordResult r) = true) (StateManager.toolCalls sm));
     failedToolCalls :=
       length (filter (fun r => success (recordResult r) = false) (StateManager.toolCalls sm));
     totalExecutionTime :=
       foldl (fun acc r => acc + executionTime (recordResult r)) 0 (StateManager.toolCalls sm) |}.

Definition getHistoryOf (sm : StateManager.t) : StepHistory :=
  {| historySteps := StateManager.steps sm;
     historyBranches := StateManager.branches sm;
     historyToolCalls := StateManager.toolCalls sm;
     statistics := calculateStatistics sm |}.

(** [this.steps.find((s) => s.stepNumber === stepNumber)] *)
Definition getStep (sm : StateManager.t) (n : option Js.number)
  : option InterleavedStepData :=
  List.find (fun s => Js.strict_eq (stepNumber s) n) (StateManager.steps sm).

Definition getLastToolResult (sm : StateManager.t) : option ToolResultData :=
  recordResult <$> last (StateManager.toolCalls sm).

Definition newStateManager : StateManager.t :=
  {| StateManager.steps := []; StateManager.branches := []; StateManager.toolCalls := [] |}.

(** ** class InterleavedThinkingServer *)

Definition phaseIs (input : InterleavedStepData) (name : string) : bool :=
  match phase input with
  | Some p => String.eqb p name
  | None => false
  end.

Definition inferPhase (sm : StateManager.t) (input : InterleavedStepData) : string :=
  if Js.truthy_str (phase input) then default EmptyString (phase input)
  else if bool_decide (is_Some (toolCall input)) then "tool_call"
  else
    match getStep sm (Js.pred (stepNumber input)) with
    | Some lastStep => if phaseIs lastStep "tool_call" then "analysis" else "thinking"
    | None => "thinking"
    end.

Definition validateInput (input : InterleavedStepData) : M unit :=
  if negb (Js.truthy_num (stepNumber input)) || Js.lt (stepNumber input) (Some 1%Q)
  then throw (JsError "stepNumber must be a positive integer")
  else if negb (Js.truthy_num (totalSteps input)) || Js.lt (totalSteps input) (Some 1%Q)
  then throw (JsError "totalSteps must be a positive integer")
  else if negb (bool_decide (is_Some (nextStepNeeded input)))
  then throw (JsError "nextStepNeeded is required")
  else if Js.truthy_str (phase input)
          && negb (existsb (phaseIs input) ["thinking"; "tool_call"; "analysis"])
  then throw (JsError "phase must be one of: thinking, tool_call, analysis")
  else ret tt.

Definition handleError (e : thrown) : ProcessResult :=
  let errorMessage := messageOf e in
  let '(errorType, recovery) :=
    if Js.includes errorMessage "limit reached"
    then ("ToolCallLimitError", "Summarize progress and terminate or reset the server")
    else if Js.includes errorMessage "timeout"
    then ("TimeoutError", "Use simpler tool or increase timeout")
    else if Js.includes errorMessage "required"
    then ("ValidationError", "Provide all required fields")
    else ("Error", "Check input parameters and try again") in
  {| content :=
       [("text",
         ErrorPayload
           {| type := errorType; message := errorMessage; recoveryStrategy := Some recovery |}
           "failed")];
     isError := Some true |}.

(** The assignments [processStep] makes to its argument before the
    [switch]: the inferred phase and the raised [totalSteps]. *)
Definition resolvePhase (sm : StateManager.t) (input : InterleavedStepData)
  : InterleavedStepData :=
  if negb (Js.truthy_str (phase input))
  then setPhase (Some (inferPhase sm input)) input
  else input.

Definition adjustTotalSteps (input : InterleavedStepData) : InterleavedStepData :=
  if Js.gt (stepNumber input) (totalSteps input)
  then setTotalSteps (stepNumber input) input
  else input.

(** The [switch (input.phase)]: yields the step to store and the tool
    result to report. Writing to the diagnostic log is not modelled. The
    source writes [toolResult] into the caller's object and stores that
    object; here every call is given a step of its own. *)
Definition dispatchPhase (input : InterleavedStepData)
  : M (InterleavedStepData * option ToolResultData) :=
  if phaseIs input "thinking" then ret (input, None)
  else if phaseIs input "tool_call" then
    match toolCall input with
    | None => throw (JsError "toolCall is required for tool_call phase")
    | Some tc =>
        let! toolResult := executeToolCall tc in
        do! addToolCall {| recordStepNumber := stepNumber input;
                           recordToolCall := tc;
                           recordResult := toolResult |} in
        ret (setToolResult (Some toolResult) input, Some toolResult)
    end
  else if phaseIs input "analysis" then
    let! last := gets (fun s => getLastToolResult (stateManager s)) in
    ret (input, last)
  else ret (input, None).

(** The response object and its envelope. *)
Definition buildResponse (input : InterleavedStepData) (toolResult : option ToolResultData)
    (history : StepHistory) : ProcessResult :=
  {| content :=
       [("text",
         SuccessPayload
           {| responseStepNumber := stepNumber input;
              responseTotalSteps := totalSteps input;
              responseNextStepNeeded := nextStepNeeded input;
              responseBranches := Js.objectKeys (map fst (historyBranches history));
              stepHistoryLength := length (historySteps history);
              responsePhase := phase input;
              responseToolResult :=
                (fun r => (success r, executionTime r)) <$> toolResult |})];
     isError := None |}.

(** The body of the [try] block of [processStep]. *)
Definition processStepBody (input : InterleavedStepData) : M ProcessResult :=
  do! validateInput input in
  let! sm := gets stateManager in
  let input := adjustTotalSteps (resolvePhase sm input) in
  let! dispatched := dispatchPhase input in
  do! addStep (fst dispatched) in
  let! history := gets (fun s => getHistoryOf (stateManager s)) in
  ret (buildResponse (fst dispatched) (snd dispatched) history).

Definition processStep (input : InterleavedStepData) : M ProcessResult :=
  try_catch (processStepBody input) (fun error => ret (handleError error)).

Definition getHistory : M StepHistory :=
  gets (fun s => getHistoryOf (stateManager s)).

Definition reset : M unit :=
  do! resetManager in
  modify (withState (fun _ => newStateManager)).

Definition injectMockResults (mockResults : gmap string ToolResultData) : M unit :=
  injectMockResultsManager mockResults.

(** The constructor, started at clock reading [now]. *)
Definition newServer (partial : PartialServerConfig) (now : Z) : Session :=
  let cfg :=
    {| maxToolCalls := default 50 (optMaxToolCalls partial);
       defaultTimeout := default 30000 (optDefaultTimeout partial);
       disableLogging := default false (optDisableLogging partial);
       enableResultCache := default true (optEnableResultCache partial);
       testMode := default false (optTestMode partial) |} in
  {| toolCallManager :=
       {| ToolCallManager.maxToolCalls := maxToolCalls cfg;
          ToolCallManager.defaultTimeout := defaultTimeout cfg;
          ToolCallManager.enableCache := enableResultCache cfg;
          ToolCallManager.callCount := 0;
          ToolCallManager.resultCache := ∅;
          ToolCallManager.mockResults := None |};
     stateManager := newStateManager;
     config := cfg;
     clock := now;
     executed := [] |}.

(** Sessions a client can bring about: construction followed by any
    calls of the public methods of the server or, directly, of its tool
    call manager, with time passing in between. *)
Inductive reachable : Session -> Prop :=
| reachable_new partial now : reachable (newServer partial now)
| reachable_processStep s input :
    reachable s -> reachable (snd (processStep input s))
| reachable_executeToolCall s toolCall :
    reachable s -> reachable (snd (executeToolCall toolCall s))
| reachable_reset s : reachable s -> reachable (snd (reset s))
| reachable_inject s mocks : reachable s -> reachable (snd (injectMockResults mocks s))
| reachable_wait s dt :
    reachable s -> 0 <= dt ->
    reachable {| toolCallManager := toolCallManager s;
                 stateManager := stateManager s;
                 config := config s;
                 clock := clock s + dt;
                 executed := executed s |}.

End Engine.

(** ** Sessions along the paths of [executeToolCall] *)

(** The session once the call counter has been incremented. *)
Definition counted (s : Session) : Session :=
  withManager (fun m => setCallCount (ToolCallManager.callCount m + 1) m) s.

(** The session once an execution of [toolCall] has been awaited for
    [dt] milliseconds. *)
Definition awaited (toolCall : ToolCallData) (dt : Z) (s : Session) : Session :=
  {| toolCallManager := toolCallManager s;
     stateManager := stateManager s;
     config := config s;
     clock := clock s + dt;
     executed := executed s ++ [toolCall] |}.

(** The session once [r] has been put in the result cache for [toolCall]. *)
Definition cachedAs (toolCall : ToolCallData) (r : ToolResultData) (s : Session) : Session :=
  withManager (fun m =>
    setResultCache (<[getCacheKey toolCall := r]> (ToolCallManager.resultCache m)) m) s.

(** ** Notions used to state the properties *)

(** The [totalSteps] of the step stored last. *)
Definition storedTotalSteps (s : Session) : option Js.number :=
  last (StateManager.steps (stateManager s)) ≫= totalSteps.

(** The phase of a step without explicit phase, given the number
    [previous] under which its predecessor is looked up: [tool_call] when
    a tool call is present; otherwise [analysis] when the first stored
    step with that number has the recorded phase [tool_call]; otherwise
    [thinking]. *)
Definition phaseAfter (toolCallPresent : bool) (stored : list InterleavedStepData)
    (previous : Js.number) : string :=
  if toolCallPresent then "tool_call"
  else
    match List.find (fun s => match stepNumber s with
                              | Some m => Qeq_bool m previous
                              | None => false
                              end) stored with
    | Some previous =>
        if bool_decide (phase previous = Some "tool_call") then "analysis" else "thinking"
    | None => "thinking"
    end.

(** Phase resolution as the specification words it: the predecessor is
    the first stored step whose number is the incoming number minus
    one. *)
Definition specPhase (toolCallPresent : bool) (stored : list InterleavedStepData)
    (n : Js.number) : string :=
  phaseAfter toolCallPresent stored (n - 1)%Q.

(** Every cached object is a successful result exactly as an execution
    resolved it. *)
Definition cacheIsRaw (executor : ToolCallData -> Execution) (m : ToolCallManager.t) : Prop :=
  forall key r,
    ToolCallManager.resultCache m !! key = Some r ->
    success r = true
    /\ exists toolCall, getCacheKey toolCall = key /\ outcome (executor toolCall) = Resolved r.

(** The error envelope of section 6 of the specification. *)
Definition errorEnvelope (errorType errorMessage recovery : string) : ProcessResult :=
  {| content :=
       [("text",
         ErrorPayload
           {| type := errorType; message := errorMessage; recoveryStrategy := Some recovery |}
           "failed")];
     isError := Some true |}.

(** ** Sample sessions and inputs *)

Module Sample.

Definition defaults : PartialServerConfig :=
  {| optMaxToolCalls := None; optDefaultTimeout := None; optDisableLogging := None;
     optEnableResultCache := None; optTestMode := None |}.

Definition budget (n : Z) : PartialServerConfig :=
  {| optMaxToolCalls := Some n; optDefaultTimeout := None; optDisableLogging := None;
     optEnableResultCache := None; optTestMode := None |}.

Definition uncached : PartialServerConfig :=
  {| optMaxToolCalls := None; optDefaultTimeout := None; optDisableLogging := None;
     optEnableResultCache := Some false; optTestMode := None |}.

(** A fresh server with the default configuration, started at
    2026-11-02T00:00:00.000Z. *)
Definition fresh : Session := newServer defaults 1793577600000.

Definition fetch : ToolCallData :=
  {| toolName := "fetch"; parameters := [("q", JStr "x")]; metadata := None |}.

(** The same call with a five millisecond timeout and a priority. *)
Definition fetchHurried : ToolCallData :=
  {| toolName := "fetch"; parameters := [("q", JStr "x")];
     metadata := Some {| timeout := Some 5; retryCount := None; priority := Some "high" |} |}.

(** The same call with a generous timeout. *)
Definition fetchPatient : ToolCallData :=
  {| toolName := "fetch"; parameters := [("q", JStr "x")];
     metadata := Some {| timeout := Some 60000; retryCount := Some 2; priority := Some "low" |} |}.

Definition fixture : ToolResultData :=
  {| resultToolName := "fetch"; success := true; result := Some (JStr "canned");
     error := None; executionTime := 7; timestamp := "2020-01-01T00:00:00.000Z" |}.

Definition step (n total : Q) (p : option string) (tc : option ToolCallData)
  : InterleavedStepData :=
  {| thought := "t"; stepNumber := Some n; totalSteps := Some total;
     nextStepNeeded := Some true; isRevision := None; revisesStep := None;
     branchFromStep := None; branchId := None; needsMoreSteps := None;
     phase := p; toolCall := tc; toolResult := None |}.

(** An executor whose every execution breaks after one millisecond. *)
Definition broken (toolCall : ToolCallData) : Execution :=
  {| duration := 1; outcome := Rejected (JsError "connection refused") |}.

End Sample.

(** ** Remaining methods of the source *)

Module ToolCallStatistics.
Record t := {
  totalCalls : Z;
  successfulCalls : nat;
  failedCalls : nat;
  totalExecutionTime : Z
}.
End ToolCallStatistics.

(** One turn of the loop of [ToolCallManager.getStatistics] over the
    values of the result cache. *)
Definition countResult (result : ToolResultData) (acc : nat * nat * Z) : nat * nat * Z :=
  let '(successfulCalls, failedCalls, time) := acc in
  if success result
  then (S successfulCalls, failedCalls, time + executionTime result)
  else (successfulCalls, S failedCalls, time + executionTime result).

(** [ToolCallManager.getStatistics] *)
Definition getStatistics (m : ToolCallManager.t) : ToolCallStatistics.t :=
  let '(successfulCalls, failedCalls, time) :=
    map_fold (fun _ result acc => countResult result acc) (0%nat, 0%nat, 0)
      (ToolCallManager.resultCache m) in
  {| ToolCallStatistics.totalCalls := ToolCallManager.callCount m;
     ToolCallStatistics.successfulCalls := successfulCalls;
     ToolCallStatistics.failedCalls := failedCalls;
     ToolCallStatistics.totalExecutionTime := time |}.

(** [Logger.formatBox], on strings as sequences of UTF-16 code units,
    which is what [length], [padEnd] and [repeat] count. *)
Module Logger.

Definition str : Type := list N.

Definition newline : N := 10.
Definition space : N := 32.
Definition horizontal : N := 9472.
Definition vertical : N := 9474.
Definition topLeft : N := 9484.
Definition topRight : N := 9488.
Definition midLeft : N := 9500.
Definition midRight : N := 9508.
Definition bottomLeft : N := 9492.
Definition bottomRight : N := 9496.

(** [s.padEnd(target)] *)
Definition padEnd (s : str) (target : nat) : str :=
  (s ++ repeat space (target - length s))%list.

Definition formatBox (header content : str) : str :=
  let maxLength := (Nat.max (length header) (length content) + 4)%nat in
  let border := repeat horizontal maxLength in
  ([newline]
   ++ [topLeft] ++ border ++ [topRight] ++ [newline]
   ++ [vertical; space] ++ padEnd header (maxLength - 2) ++ [space; vertical] ++ [newline]
   ++ [midLeft] ++ border ++ [midRight] ++ [newline]
   ++ [vertical; space] ++ padEnd content (maxLength - 2) ++ [space; vertical] ++ [newline]
   ++ [bottomLeft] ++ border ++ [bottomRight])%list.

End Logger.

(** ** Invariants of the session *)

(** What [processStep] guarantees of every step it stores. *)
Definition wellFormedStep (step : InterleavedStepData) : Prop :=
  (exists n total,
      stepNumber step = Some n /\ totalSteps step = Some total
      /\ (1 <= n)%Q /\ (n <= total)%Q)
  /\ is_Some (nextStepNeeded step)
  /\ (exists p, phase step = Some p /\ In p ["thinking"; "tool_call"; "analysis"])
  /\ (phase step = Some "tool_call" -> is_Some (toolCall step) /\ is_Some (toolResult step)).

(** The tool call record a stored [tool_call] step stands for. *)
Definition recordOf (step : InterleavedStepData) : option ToolCallRecord :=
  match toolCall step, toolResult step with
  | Some tc, Some r =>
      Some {| recordStepNumber := stepNumber step; recordToolCall := tc; recordResult := r |}
  | _, _ => None
  end.

(** The tool call log lists, in order, the records of the stored
    [tool_call] steps. *)
Definition logMirrorsSteps (sm : StateManager.t) : Prop :=
  map Some (StateManager.toolCalls sm)
  = map recordOf (List.filter (fun step => phaseIs step "tool_call") (StateManager.steps sm)).

(** The branch index: distinct non-inherited names, each with a non-empty
    bucket of stored steps that name it. *)
Definition branchesIndexSteps (sm : StateManager.t) : Prop :=
  NoDup (map fst (StateManager.branches sm))
  /\ forall id bucket,
      In (id, bucket) (StateManager.branches sm) ->
      inheritedKey id = false
      /\ bucket <> []
      /\ forall step, In step bucket ->
           In step (StateManager.steps sm) /\ branchId step = Some id.

(** The call counter stays between zero and the budget, and the log
    never holds more tool calls than were counted. *)
Definition withinBudget (s : Session) : Prop :=
  0 <= ToolCallManager.callCount (toolCallManager s)
  /\ ToolCallManager.callCount (toolCallManager s)
     <= Z.max 0 (ToolCallManager.maxToolCalls (toolCallManager s))
  /\ Z.of_nat (length (StateManager.toolCalls (stateManager s)))
     <= ToolCallManager.callCount (toolCallManager s).

(** The four invariants together. *)
Definition sessionInvariant (s : Session) : Prop :=
  Forall wellFormedStep (StateManager.steps (stateManager s))
  /\ logMirrorsSteps (stateManager s)
  /\ branchesIndexSteps (stateManager s)
  /\ withinBudget s.

(** ** Further sample inputs *)

Module Scenario.

(** A step with neither [nextStepNeeded] nor a known phase name. *)
Definition unfinished : InterleavedStepData :=
  {| thought := "t"; stepNumber := Some 1%Q; totalSteps := Some 1%Q;
     nextStepNeeded := None; isRevision := None; revisesStep := None;
     branchFromStep := None; branchId := None; needsMoreSteps := None;
     phase := Some "planning"; toolCall := None; toolResult := None |}.

(** A step registered into the branch [id], branching from step 1. *)
Definition branching (n : Q) (id : string) : InterleavedStepData :=
  {| thought := "t"; stepNumber := Some n; totalSteps := Some 3%Q;
     nextStepNeeded := Some true; isRevision := None; revisesStep := None;
     branchFromStep := Some 1%Q; branchId := Some id; needsMoreSteps := None;
     phase := None; toolCall := None; toolResult := None |}.

(** A fresh server that has stored a thinking step. *)
Definition afterThought : Session :=
  snd (processStep simulateToolExecution (Sample.step 1 3 None None) Sample.fresh).

(** The same server after a tool call step. *)
Definition afterCall : Session :=
  snd (processStep simulateToolExecution (Sample.step 2 3 None (Some Sample.fetch))
         afterThought).

(** The step stored last in [afterCall]. *)
Definition storedCall : InterleavedStepData :=
  default (Sample.step 1 1 None None) (last (StateManager.steps (stateManager afterCall))).

(** Another tool call, and what the built-in executor resolves for
    [Sample.fetch]. *)
Definition search : ToolCallData :=
  {| toolName := "search"; parameters := [("term", JStr "rocq"); ("limit", JNum 5)];
     metadata := None |}.

Definition fetched : ToolResultData :=
  {| resultToolName := "fetch";
     success := true;
     result := Some (JObj [("message", JStr "Mock result for fetch");
                           ("parameters", JObj [("q", JStr "x")])]);
     error := None;
     executionTime := 0;
     timestamp := EmptyString |}.

(** A fresh server that has stored a tool call as step 2^53, the number
    from which on the JavaScript numbers are two or more apart. *)
Definition lateCall : Session :=
  snd (processStep simulateToolExecution
         (Sample.step (inject_Z (2 ^ 53)) (inject_Z (2 ^ 53)) None (Some Sample.fetch))
         Sample.fresh).

(** The step numbered 2^53 + 2, the JavaScript number that follows. *)
Definition lateStep : InterleavedStepData :=
  Sample.step (inject_Z (2 ^ 53 + 2)) (inject_Z (2 ^ 53 + 2)) None None.

Definition afterThought_reachable : reachable simulateToolExecution afterThought :=
  reachable_processStep _ _ _ (reachable_new _ Sample.defaults 1793577600000).

Definition afterCall_reachable : reachable simulateToolExecution afterCall :=
  reachable_processStep _ _ _ afterThought_reachable.

End Scenario.

(** * Properties *)

#[global] Arguments Clock.toISOString : simpl never.
#[global] Arguments Json.stringify : simpl never.
#[global] Arguments Js.includes : simpl never.
#[global] Arguments getCacheKey : simpl never.
#[global] Arguments race : simpl never.
#[global] Arguments effectiveTimeout : simpl never.
#[global] Arguments mockFor : simpl never.
#[global] Arguments cachedFor : simpl never.
#[global] Arguments executeToolCall : simpl never.
#[global] Arguments addToolCall : simpl never.
#[global] Arguments addStep : simpl never.
#[global] Arguments Js.toDouble : simpl never.
#[global] Arguments Js.objectKeys : simpl never.

(** ** Rounding of numbers *)

Lemma toDouble_comp (q q' : Q) : (q == q')%Q -> Js.toDouble q = Js.toDouble q'.
Proof. intros H. unfold Js.toDouble. now rewrite (Qred_complete _ _ H). Qed.

Lemma toDouble_pos (q : Q) : (0 < q)%Q -> Js.toDouble q = Js.nearest (Qred q).
Proof.
  intros H. unfold Js.toDouble.
  assert (Hc : (Qred q ?= 0)%Q = Gt).
  { apply Qgt_alt. now rewrite Qred_correct. }
  now rewrite Hc.
Qed.

Lemma roundHalfEven_Z (q : Q) (z : Z) : (q == inject_Z z)%Q -> Js.roundHalfEven q = z.
Proof.
  intros H. unfold Js.roundHalfEven.
  assert (Hf : Qfloor q = z) by (rewrite (Qfloor_comp _ _ H); apply Qfloor_Z).
  rewrite Hf.
  assert (Hc : (q - inject_Z z ?= 1 # 2)%Q = Lt).
  { apply Qlt_alt. rewrite H. unfold Qminus. rewrite Qplus_opp_r. reflexivity. }
  now rewrite Hc.
Qed.

Lemma pow2_neg (w : Z) : 0 <= w -> (2 ^ (- w) == / inject_Z (2 ^ w))%Q.
Proof.
  intros Hw. rewrite Qpower_opp. apply Qinv_comp.
  rewrite Zpower_Qpower by exact Hw. reflexivity.
Qed.

Lemma pow2_pos (w : Z) : 0 <= w -> (0 < inject_Z (2 ^ w))%Q.
Proof.
  intros Hw. rewrite <- (Zlt_Qlt 0). now apply Z.pow_pos_nonneg.
Qed.

Lemma exponent_ge_1 (q : Q) :
  (1 <= q)%Q -> Js.exponent q = Z.log2 (Qfloor q) /\ 1 <= Qfloor q.
Proof.
  intros H. unfold Js.exponent.
  apply Qle_bool_iff in H as Hb. rewrite Hb. split; [reflexivity|].
  change 1 with (Qfloor 1). now apply Qfloor_resp_le.
Qed.

Lemma exponent_mono (q' q : Q) :
  (0 < q')%Q -> (1 <= q)%Q -> (q' <= q)%Q -> Js.exponent q' <= Js.exponent q.
Proof.
  intros Hpos H1 Hle.
  destruct (exponent_ge_1 q H1) as [-> Hf].
  unfold Js.exponent. destruct (Qle_bool 1 q') eqn:E.
  - apply Z.log2_le_mono. now apply Qfloor_resp_le.
  - pose proof (Z.log2_up_nonneg (Qceiling (/ q'))).
    pose proof (Z.log2_nonneg (Qfloor q)). lia.
Qed.

(** Below 2^53 the spacing of the binary64 numbers is at most 1, and it
    does not grow towards 0: one less than such a number, from 1 on, is
    a multiple of the spacing at its own magnitude. *)
Lemma nearest_pred_exact (q q' : Q) :
  (1 <= q)%Q -> (q < inject_Z (2 ^ 53))%Q -> (Js.nearest q == q)%Q ->
  (0 < q')%Q -> (q' == q - 1)%Q ->
  (Js.nearest q' == q')%Q.
Proof.
  intros H1 H53 Hq Hpos Hq'.
  destruct (exponent_ge_1 q H1) as [He Hf].
  assert (Hmono : Js.exponent q' <= Js.exponent q).
  { apply exponent_mono; [exact Hpos|exact H1|]. rewrite Hq'. lra. }
  assert (He52 : 0 <= Js.exponent q <= 52).
  { rewrite He. split; [apply Z.log2_nonneg|].
    assert (Qfloor q < 2 ^ 53).
    { rewrite Zlt_Qlt. eapply Qle_lt_trans; [apply Qfloor_le|exact H53]. }
    assert (Z.log2 (Qfloor q) < 53) by (apply Z.log2_lt_pow2; lia). lia. }
  unfold Js.nearest in *.
  set (u := Z.max (Js.exponent q) (-1022) - 52) in *.
  set (u' := Z.max (Js.exponent q') (-1022) - 52) in *.
  set (r := Js.roundHalfEven (q / 2 ^ u)) in *.
  assert (Hu : u = - (- u)) by lia.
  assert (Hu' : u' = - (- u')) by lia.
  assert (Hw : 0 <= - u) by lia.
  assert (Hw' : - u <= - u') by lia.
  pose proof (pow2_pos (- u) Hw) as Hb.
  pose proof (pow2_pos (- u') ltac:(lia)) as Hb'.
  pose proof (pow2_pos (- u' - - u) ltac:(lia)) as Hb''.
  assert (Hsplit : (inject_Z (2 ^ (- u'))
                    == inject_Z (2 ^ (- u' - - u)) * inject_Z (2 ^ (- u)))%Q).
  { rewrite <- inject_Z_mult, <- Z.pow_add_r by lia.
    now replace (- u' - - u + - u) with (- u') by lia. }
  assert (Hp : (2 ^ u == / inject_Z (2 ^ (- u)))%Q)
    by (rewrite Hu at 1; apply pow2_neg; lia).
  assert (Hp' : (2 ^ u' == / inject_Z (2 ^ (- u')))%Q)
    by (rewrite Hu' at 1; apply pow2_neg; lia).
  rewrite Hp in Hq.
  assert (Hk : (q' / 2 ^ u' == inject_Z (r * 2 ^ (- u' - - u) - 2 ^ (- u')))%Q).
  { rewrite Hp', Hq', <- Hq. unfold Zminus at 1.
    rewrite inject_Z_plus, inject_Z_opp, inject_Z_mult, Hsplit. field. split; lra. }
  rewrite (roundHalfEven_Z _ _ Hk), <- Hk, Hp'. field. lra.
Qed.

(** [x - 1] is exact for the JavaScript numbers from 1 to 2^53. *)
Lemma toDouble_pred_exact (n : Q) :
  Js.isDouble n = true -> (1 <= n)%Q -> (n <= inject_Z (2 ^ 53))%Q ->
  (Js.toDouble (n - 1) == n - 1)%Q.
Proof.
  intros Hd H1 H53. apply Qeq_bool_iff in Hd.
  destruct (Qle_lt_or_eq _ _ H53) as [Hlt|Heq].
  - destruct (Qle_lt_or_eq _ _ H1) as [Hgt|Hone].
    + rewrite toDouble_pos in Hd by lra. rewrite toDouble_pos by lra.
      pose proof (Qred_correct n) as Hn. pose proof (Qred_correct (n - 1)) as Hn'.
      rewrite <- Hn' at 2.
      apply (nearest_pred_exact (Qred n)); rewrite ?Hn, ?Hn'; lra.
    + rewrite (toDouble_comp (n - 1) 0) by lra. rewrite <- Hone. reflexivity.
  - rewrite (toDouble_comp (n - 1) (inject_Z (2 ^ 53 - 1))).
    + rewrite Heq. vm_compute. reflexivity.
    + rewrite Heq. vm_compute. reflexivity.
Qed.

(** The number before the successor of a JavaScript number is that
    number. *)
Lemma pred_succ (n : Js.number) :
  Js.isDouble n = true -> Js.strict_eq (Some n) (Js.pred (Some (n + 1)%Q)) = true.
Proof.
  intros Hd. cbn. rewrite (toDouble_comp (n + 1 - 1) n) by (unfold Js.number in *; ring).
  apply Qeq_bool_iff. apply Qeq_bool_iff in Hd. now symmetry.
Qed.

Ltac unfold_monad :=
  unfold bind, ret, throw, gets, modify, try_catch in *.

Section ToolCallManagerFacts.

Variable executor : ToolCallData -> Execution.

Lemma executeToolCall_budget toolCall s :
  canExecuteToolCall (toolCallManager s) = false ->
  executeToolCall executor toolCall s = (Throw (JsError "Tool call limit reached"), s).
Proof.
  intros H. unfold executeToolCall. unfold_monad. now rewrite H.
Qed.

Lemma executeToolCall_mock toolCall s r :
  canExecuteToolCall (toolCallManager s) = true ->
  mockFor (toolCallManager s) toolCall = Some r ->
  executeToolCall executor toolCall s = (Return r, counted s).
Proof.
  intros Hc Hm. unfold executeToolCall. unfold_monad. rewrite Hc. cbn.
  change (mockFor _ toolCall) with (mockFor (toolCallManager s) toolCall).
  now rewrite Hm.
Qed.

Lemma executeToolCall_cached toolCall s r :
  canExecuteToolCall (toolCallManager s) = true ->
  mockFor (toolCallManager s) toolCall = None ->
  cachedFor (toolCallManager s) toolCall = Some r ->
  executeToolCall executor toolCall s = (Return r, counted s).
Proof.
  intros Hc Hm Hk. unfold executeToolCall. unfold_monad. rewrite Hc. cbn.
  change (mockFor _ toolCall) with (mockFor (toolCallManager s) toolCall).
  rewrite Hm.
  change (cachedFor _ toolCall) with (cachedFor (toolCallManager s) toolCall).
  now rewrite Hk.
Qed.

Lemma executeToolCall_run toolCall s :
  canExecuteToolCall (toolCallManager s) = true ->
  mockFor (toolCallManager s) toolCall = None ->
  cachedFor (toolCallManager s) toolCall = None ->
  executeToolCall executor toolCall s =
    let '(dt, v) := race (executor toolCall) (effectiveTimeout (toolCallManager s) toolCall) in
    let s1 := awaited toolCall dt (counted s) in
    match v with
    | Resolved r =>
        (Return (stamp r dt (Clock.toISOString (clock s + dt))),
         if ToolCallManager.enableCache (toolCallManager s) && success r
         then cachedAs toolCall r s1 else s1)
    | Rejected e =>
        (Return (failureResult toolCall e dt (Clock.toISOString (clock s + dt))), s1)
    end.
Proof.
  intros Hc Hm Hk. unfold executeToolCall. unfold_monad. rewrite Hc. cbn.
  change (mockFor _ toolCall) with (mockFor (toolCallManager s) toolCall).
  rewrite Hm.
  change (cachedFor _ toolCall) with (cachedFor (toolCallManager s) toolCall).
  rewrite Hk. unfold awaitRace. cbn.
  change (effectiveTimeout _ toolCall) with (effectiveTimeout (toolCallManager s) toolCall).
  destruct (race _ _) as [dt [r|e]]; cbn.
  - destruct (ToolCallManager.enableCache (toolCallManager s) && success r);
      cbn; rewrite Z.add_simpl_l; reflexivity.
  - rewrite Z.add_simpl_l. reflexivity.
Qed.

End ToolCallManagerFacts.

Section ToolCallManagerClaims.

Variable executor : ToolCallData -> Execution.

Lemma getCacheKey_ext tc1 tc2 :
  toolName tc1 = toolName tc2 ->
  Json.stringify (JObj (parameters tc1)) = Json.stringify (JObj (parameters tc2)) ->
  getCacheKey tc1 = getCacheKey tc2.
Proof. intros Hn Hp. unfold getCacheKey. now rewrite Hn, Hp. Qed.

Lemma mockFor_key m tc1 tc2 :
  getCacheKey tc1 = getCacheKey tc2 -> mockFor m tc1 = mockFor m tc2.
Proof. intros H. unfold mockFor. now rewrite H. Qed.

Lemma cachedFor_key m tc1 tc2 :
  getCacheKey tc1 = getCacheKey tc2 -> cachedFor m tc1 = cachedFor m tc2.
Proof. intros H. unfold cachedFor. now rewrite H. Qed.

(** Every completion of [executeToolCall], path by path. *)
Lemma executeToolCall_throws toolCall s e s' :
  executeToolCall executor toolCall s = (Throw e, s') ->
  e = JsError "Tool call limit reached"
  /\ canExecuteToolCall (toolCallManager s) = false
  /\ s' = s.
Proof.
  intros H.
  destruct (canExecuteToolCall (toolCallManager s)) eqn:Hc.
  - destruct (mockFor (toolCallManager s) toolCall) as [r|] eqn:Hm.
    { rewrite (executeToolCall_mock _ _ _ _ Hc Hm) in H. discriminate. }
    destruct (cachedFor (toolCallManager s) toolCall) as [r|] eqn:Hk.
    { rewrite (executeToolCall_cached _ _ _ _ Hc Hm Hk) in H. discriminate. }
    rewrite (executeToolCall_run _ _ _ Hc Hm Hk) in H.
    destruct (race _ _) as [dt [r|e0]]; discriminate.
  - rewrite (executeToolCall_budget _ _ _ Hc) in H.
    injection H as <- <-. auto.
Qed.

(** C5: an invocation that passes the budget check always returns a
    ToolResult; when its execution is rejected (the timeout included)
    the result has [success = false] and its error type is
    "TimeoutError" if the failure message indicates a timeout and
    "ToolExecutionError" otherwise. The only exception [executeToolCall]
    ever raises is "Tool call limit reached", raised when the budget is
    spent and before anything is changed. *)
Theorem C5_execution_failure_is_returned toolCall s :
  canExecuteToolCall (toolCallManager s) = true ->
  (exists r s',
      executeToolCall executor toolCall s = (Return r, s')
      /\ forall dt e,
          mockFor (toolCallManager s) toolCall = None ->
          cachedFor (toolCallManager s) toolCall = None ->
          race (executor toolCall) (effectiveTimeout (toolCallManager s) toolCall)
            = (dt, Rejected e) ->
          success r = false
          /\ error r = Some
               {| type := if indicatesTimeout e then "TimeoutError" else "ToolExecutionError";
                  message := messageOf e;
                  recoveryStrategy := Some
                    (if indicatesTimeout e
                     then "Use simpler tool or increase timeout"
                     else "Retry with adjusted parameters or use alternative tool") |})
  /\ (forall tc0 s0 e0 s0',
        executeToolCall executor tc0 s0 = (Throw e0, s0') ->
        e0 = JsError "Tool call limit reached"
        /\ canExecuteToolCall (toolCallManager s0) = false
        /\ s0' = s0).
Proof.
  intros Hc. split; [|apply executeToolCall_throws].
  destruct (mockFor (toolCallManager s) toolCall) as [r|] eqn:Hm.
  { exists r, (counted s). split; [now apply executeToolCall_mock|]. discriminate. }
  destruct (cachedFor (toolCallManager s) toolCall) as [r|] eqn:Hk.
  { exists r, (counted s). split; [now apply executeToolCall_cached|]. discriminate. }
  rewrite (executeToolCall_run _ _ _ Hc Hm Hk).
  destruct (race _ _) as [dt [r|e]].
  - eexists _, _. split; [reflexivity|]. intros ? ? _ _ [=].
  - eexists _, _. split; [reflexivity|]. intros ? ? _ _ [= <- <-]. split; reflexivity.
Qed.

Lemma stamp_own r : stamp r (executionTime r) (timestamp r) = r.
Proof. now destruct r. Qed.

(** What one invocation that passes the budget check and meets no mock
    does to the session and returns. *)
Lemma executeToolCall_inv toolCall s :
  canExecuteToolCall (toolCallManager s) = true ->
  mockFor (toolCallManager s) toolCall = None ->
  (exists cached,
      cachedFor (toolCallManager s) toolCall = Some cached
      /\ executeToolCall executor toolCall s = (Return cached, counted s))
  \/ (cachedFor (toolCallManager s) toolCall = None
      /\ exists dt v,
          race (executor toolCall) (effectiveTimeout (toolCallManager s) toolCall) = (dt, v)
          /\ executeToolCall executor toolCall s =
             match v with
             | Resolved r =>
                 (Return (stamp r dt (Clock.toISOString (clock s + dt))),
                  if ToolCallManager.enableCache (toolCallManager s) && success r
                  then cachedAs toolCall r (awaited toolCall dt (counted s))
                  else awaited toolCall dt (counted s))
             | Rejected e =>
                 (Return (failureResult toolCall e dt (Clock.toISOString (clock s + dt))),
                  awaited toolCall dt (counted s))
             end).
Proof.
  intros Hc Hm.
  destruct (cachedFor (toolCallManager s) toolCall) as [r|] eqn:Hk.
  - left. exists r. split; [reflexivity|]. now apply executeToolCall_cached.
  - right. split; [reflexivity|].
    rewrite (executeToolCall_run _ _ _ Hc Hm Hk).
    destruct (race _ _) as [dt v]. exists dt, v. split; [reflexivity|].
    destruct v; reflexivity.
Qed.

(** C6: with caching enabled, a second invocation carrying the same
    tool name and the same serialised parameters as a first, successful
    one - whatever the metadata of either - is answered with the object
    held in the cache and starts no execution; a failed result leaves
    the cache as it was; with caching disabled each of the two
    invocations starts an execution. Both invocations are within the
    budget and no mock result is registered for the call. *)
Theorem C6_cache_correctness tc1 tc2 s o1 s1 o2 s2 :
  toolName tc1 = toolName tc2 ->
  Json.stringify (JObj (parameters tc1)) = Json.stringify (JObj (parameters tc2)) ->
  mockFor (toolCallManager s) tc1 = None ->
  ToolCallManager.callCount (toolCallManager s) + 1
    < ToolCallManager.maxToolCalls (toolCallManager s) ->
  executeToolCall executor tc1 s = (o1, s1) ->
  executeToolCall executor tc2 s1 = (o2, s2) ->
  (ToolCallManager.enableCache (toolCallManager s) = true ->
   forall r1, o1 = Return r1 -> success r1 = true ->
     exists cached,
       ToolCallManager.resultCache (toolCallManager s1) !! getCacheKey tc1 = Some cached
       /\ o2 = Return cached
       /\ executed s2 = executed s1
       /\ stamp cached (executionTime r1) (timestamp r1) = r1)
  /\ (forall r1, o1 = Return r1 -> success r1 = false ->
        ToolCallManager.resultCache (toolCallManager s1)
        = ToolCallManager.resultCache (toolCallManager s))
  /\ (ToolCallManager.enableCache (toolCallManager s) = false ->
      executed s1 = (executed s ++ [tc1])%list
      /\ executed s2 = (executed s1 ++ [tc2])%list).
Proof.
  intros Hn Hp Hm Hb H1 H2.
  pose proof (getCacheKey_ext _ _ Hn Hp) as Hkey.
  assert (Hc : canExecuteToolCall (toolCallManager s) = true).
  { unfold canExecuteToolCall. apply Z.ltb_lt. lia. }
  destruct (executeToolCall_inv tc1 s Hc Hm) as [(c & Hk & E1)|(Hk & dt & v & Hr & E1)];
    rewrite E1 in H1.
  - (* the first invocation is itself served from the cache *)
    injection H1 as <- <-.
    assert (Hen : ToolCallManager.enableCache (toolCallManager s) = true).
    { unfold cachedFor in Hk. now destruct (ToolCallManager.enableCache _). }
    assert (Hc2 : canExecuteToolCall (toolCallManager (counted s)) = true).
    { unfold canExecuteToolCall. cbn. apply Z.ltb_lt. lia. }
    assert (Hm2 : mockFor (toolCallManager (counted s)) tc2 = None).
    { rewrite <- (mockFor_key _ _ _ Hkey). exact Hm. }
    assert (Hk2 : cachedFor (toolCallManager (counted s)) tc2 = Some c).
    { rewrite <- (cachedFor_key _ _ _ Hkey). exact Hk. }
    rewrite (executeToolCall_cached _ _ _ _ Hc2 Hm2 Hk2) in H2.
    injection H2 as <- <-.
    split; [|split].
    + intros _ r1 [= <-] _. exists c. repeat split.
      * unfold cachedFor in Hk. rewrite Hen in Hk. exact Hk.
      * apply stamp_own.
    + intros r1 _ _. reflexivity.
    + intros Hoff. congruence.
  - destruct v as [r|e].
    + (* the first invocation runs and resolves *)
      injection H1 as <- <-.
      destruct (ToolCallManager.enableCache (toolCallManager s)) eqn:Hen;
        unfold andb in H2; cbv beta iota in H2.
      * destruct (success r) eqn:Hs; cbv beta iota in H2.
        -- assert (Hc2 : canExecuteToolCall
               (toolCallManager (cachedAs tc1 r (awaited tc1 dt (counted s)))) = true).
           { unfold canExecuteToolCall. cbn. apply Z.ltb_lt. lia. }
           assert (Hm2 : mockFor
               (toolCallManager (cachedAs tc1 r (awaited tc1 dt (counted s)))) tc2 = None).
           { rewrite <- (mockFor_key _ _ _ Hkey). exact Hm. }
           assert (Hk2 : cachedFor
               (toolCallManager (cachedAs tc1 r (awaited tc1 dt (counted s)))) tc2 = Some r).
           { rewrite <- (cachedFor_key _ _ _ Hkey). unfold cachedFor. cbn. rewrite Hen.
             apply lookup_insert_eq. }
           rewrite (executeToolCall_cached _ _ _ _ Hc2 Hm2 Hk2) in H2.
           injection H2 as <- <-.
           split; [|split].
           ++ intros _ r1 [= <-] _. exists r. repeat split.
              cbn. apply lookup_insert_eq.
           ++ intros r1 [= <-]. cbn. congruence.
           ++ discriminate.
        -- split; [|split].
           ++ intros _ r1 [= <-]. cbn. congruence.
           ++ intros r1 _ _. reflexivity.
           ++ discriminate.
      * split; [|split].
        -- discriminate.
        -- intros r1 _ _. reflexivity.
        -- intros _. split; [reflexivity|].
           assert (Hc2 : canExecuteToolCall
               (toolCallManager (awaited tc1 dt (counted s))) = true).
           { unfold canExecuteToolCall. cbn. apply Z.ltb_lt. lia. }
           assert (Hm2 : mockFor (toolCallManager (awaited tc1 dt (counted s))) tc2 = None).
           { rewrite <- (mockFor_key _ _ _ Hkey). exact Hm. }
           assert (Hk2 : cachedFor (toolCallManager (awaited tc1 dt (counted s))) tc2 = None).
           { unfold cachedFor. cbn. now rewrite Hen. }
           rewrite (executeToolCall_run _ _ _ Hc2 Hm2 Hk2) in H2.
           destruct (race _ _) as [dt2 [r2|e2]]; injection H2 as <- <-.
           ++ cbn. rewrite Hen. reflexivity.
           ++ reflexivity.
    + (* the first invocation runs and is rejected *)
      injection H1 as <- <-.
      split; [|split].
      * intros _ r1 [= <-]. cbn. discriminate.
      * intros r1 _ _. reflexivity.
      * intros Hen. split; [reflexivity|].
        assert (Hc2 : canExecuteToolCall
            (toolCallManager (awaited tc1 dt (counted s))) = true).
        { unfold canExecuteToolCall. cbn. apply Z.ltb_lt. lia. }
        assert (Hm2 : mockFor (toolCallManager (awaited tc1 dt (counted s))) tc2 = None).
        { rewrite <- (mockFor_key _ _ _ Hkey). exact Hm. }
        assert (Hk2 : cachedFor (toolCallManager (awaited tc1 dt (counted s))) tc2 = None).
        { unfold cachedFor. cbn. now rewrite Hen. }
        rewrite (executeToolCall_run _ _ _ Hc2 Hm2 Hk2) in H2.
        destruct (race _ _) as [dt2 [r2|e2]]; injection H2 as <- <-.
        -- cbn. rewrite Hen. reflexivity.
        -- reflexivity.
Qed.

End ToolCallManagerClaims.

(** The built-in executor loses the race against a five millisecond
    timeout, and an executor that breaks yields "ToolExecutionError". *)
Lemma C5_witness :
  (exists r s',
      executeToolCall simulateToolExecution Sample.fetchHurried Sample.fresh = (Return r, s')
      /\ success r = false
      /\ type <$> error r = Some "TimeoutError")
  /\ (exists r s',
      executeToolCall Sample.broken Sample.fetch Sample.fresh = (Return r, s')
      /\ success r = false
      /\ type <$> error r = Some "ToolExecutionError").
Proof.
  split.
  - destruct (C5_execution_failure_is_returned simulateToolExecution
                Sample.fetchHurried Sample.fresh eq_refl) as [(r & s' & He & Hf) _].
    exists r, s'. split; [exact He|].
    destruct (Hf 5 (JsError "Tool execution timeout after 5ms") eq_refl eq_refl eq_refl)
      as [Hs Herr].
    split; [exact Hs|]. rewrite Herr. reflexivity.
  - destruct (C5_execution_failure_is_returned Sample.broken
                Sample.fetch Sample.fresh eq_refl) as [(r & s' & He & Hf) _].
    exists r, s'. split; [exact He|].
    destruct (Hf 1 (JsError "connection refused") eq_refl eq_refl eq_refl) as [Hs Herr].
    split; [exact Hs|]. rewrite Herr. reflexivity.
Defined.

(** A patient call followed by the same call in a hurry: the second is
    answered from the cache although, executed, it would time out. *)
Lemma C6_witness :
  exists cached,
    ToolCallManager.resultCache
      (toolCallManager (snd (executeToolCall simulateToolExecution Sample.fetchPatient Sample.fresh)))
      !! getCacheKey Sample.fetchPatient = Some cached
    /\ fst (executeToolCall simulateToolExecution Sample.fetchHurried
              (snd (executeToolCall simulateToolExecution Sample.fetchPatient Sample.fresh)))
       = Return cached
    /\ executed (snd (executeToolCall simulateToolExecution Sample.fetchHurried
              (snd (executeToolCall simulateToolExecution Sample.fetchPatient Sample.fresh))))
       = [Sample.fetchPatient].
Proof.
  destruct (C6_cache_correctness simulateToolExecution
              Sample.fetchPatient Sample.fetchHurried Sample.fresh _ _ _ _
              eq_refl eq_refl eq_refl ltac:(vm_compute; reflexivity)
              (surjective_pairing _) (surjective_pairing _)) as [H _].
  destruct (H eq_refl _ eq_refl eq_refl) as (cached & Hc & Ho & He & _).
  exists cached. split; [exact Hc|]. split; [exact Ho|].
  rewrite He. reflexivity.
Defined.

Section ServerFacts.

Variable executor : ToolCallData -> Execution.

Lemma validateInput_cases input s :
  validateInput input s = (Return tt, s) \/ exists e, validateInput input s = (Throw e, s).
Proof.
  unfold validateInput, throw, ret.
  repeat match goal with
         | |- context [if ?b then _ else _] => destruct b
         end; eauto.
Qed.

Lemma validateInput_accepts input s s' :
  validateInput input s = (Return tt, s') ->
  exists n total,
    stepNumber input = Some n /\ totalSteps input = Some total
    /\ (1 <= n)%Q /\ (1 <= total)%Q
    /\ is_Some (nextStepNeeded input).
Proof.
  unfold validateInput, throw, ret.
  destruct (negb (Js.truthy_num (stepNumber input)) || _) eqn:H1; [discriminate|].
  destruct (negb (Js.truthy_num (totalSteps input)) || _) eqn:H2; [discriminate|].
  destruct (negb (bool_decide _)) eqn:H3; [discriminate|].
  intros _.
  apply orb_false_iff in H1 as [H1a H1b]. apply orb_false_iff in H2 as [H2a H2b].
  destruct (stepNumber input) as [n|]; [|discriminate].
  destruct (totalSteps input) as [total|]; [|discriminate].
  exists n, total. repeat split.
  - cbn in H1b. destruct (n ?= 1)%Q eqn:E; try discriminate.
    + apply Qeq_alt in E. rewrite E. apply Qle_refl.
    + apply Qgt_alt in E. now apply Qlt_le_weak.
  - cbn in H2b. destruct (total ?= 1)%Q eqn:E; try discriminate.
    + apply Qeq_alt in E. rewrite E. apply Qle_refl.
    + apply Qgt_alt in E. now apply Qlt_le_weak.
  - apply negb_false_iff in H3. now apply bool_decide_eq_true in H3.
Qed.

(** [processStep] without the monad: the three places where the body
    can throw, each followed by [handleError]. *)
Lemma processStep_eq input s :
  processStep executor input s =
    match validateInput input s with
    | (Throw e, s0) => (Return (handleError e), s0)
    | (Return _, s0) =>
        match dispatchPhase executor
                (adjustTotalSteps (resolvePhase (stateManager s0) input)) s0 with
        | (Throw e, s1) => (Return (handleError e), s1)
        | (Return dispatched, s1) =>
            match addStep (fst dispatched) s1 with
            | (Throw e, s2) => (Return (handleError e), s2)
            | (Return _, s2) =>
                (Return (buildResponse (fst dispatched) (snd dispatched)
                           (getHistoryOf (stateManager s2))), s2)
            end
        end
    end.
Proof.
  unfold processStep, processStepBody. unfold_monad.
  destruct (validateInput input s) as [[[]|e] s0]; [|reflexivity].
  destruct (dispatchPhase _ _ _) as [[d|e] s1]; [|reflexivity].
  destruct (addStep _ _) as [[[]|e] s2]; reflexivity.
Qed.

Lemma handleError_shape e :
  exists errorType recovery,
    handleError e = errorEnvelope errorType (messageOf e) recovery
    /\ In errorType ["ToolCallLimitError"; "TimeoutError"; "ValidationError"; "Error"].
Proof.
  unfold handleError.
  destruct (Js.includes (messageOf e) "limit reached"); [|
  destruct (Js.includes (messageOf e) "timeout"); [|
  destruct (Js.includes (messageOf e) "required")]];
    eexists _, _; (split; [reflexivity|cbn; tauto]).
Qed.

(** [addStep] always stores the step, also when it then throws. *)
Lemma addStep_steps step s :
  StateManager.steps (stateManager (snd (addStep step s)))
  = (StateManager.steps (stateManager s) ++ [step])%list
  /\ StateManager.toolCalls (stateManager (snd (addStep step s)))
     = StateManager.toolCalls (stateManager s)
  /\ toolCallManager (snd (addStep step s)) = toolCallManager s
  /\ clock (snd (addStep step s)) = clock s
  /\ executed (snd (addStep step s)) = executed s.
Proof.
  unfold addStep. unfold_monad.
  destruct (Js.truthy_num _ && Js.truthy_str _); [|cbn; auto].
  destruct (inheritedKey _); cbn; auto.
Qed.

End ServerFacts.

Section DispatchFacts.

Variable executor : ToolCallData -> Execution.

Lemma phaseIs_decide input name :
  phaseIs input name = bool_decide (phase input = Some name).
Proof.
  unfold phaseIs. destruct (phase input) as [p|].
  - destruct (String.eqb_spec p name) as [->|Hne].
    + symmetry. now apply bool_decide_eq_true.
    + symmetry. apply bool_decide_eq_false. congruence.
  - symmetry. now apply bool_decide_eq_false.
Qed.

Lemma adjustTotalSteps_keeps input :
  phase (adjustTotalSteps input) = phase input
  /\ toolCall (adjustTotalSteps input) = toolCall input
  /\ stepNumber (adjustTotalSteps input) = stepNumber input.
Proof. unfold adjustTotalSteps. now destruct (Js.gt _ _). Qed.

Lemma adjustTotalSteps_max input n total :
  stepNumber input = Some n -> totalSteps input = Some total ->
  totalSteps (adjustTotalSteps input) = Some (Qmax total n).
Proof.
  intros Hn Ht. unfold adjustTotalSteps, Js.gt, Js.lt. rewrite Hn, Ht.
  unfold Qmax, GenericMinMax.gmax.
  destruct (total ?= n)%Q; cbn; first [assumption | reflexivity].
Qed.

Lemma resolvePhase_keeps sm input :
  toolCall (resolvePhase sm input) = toolCall input
  /\ stepNumber (resolvePhase sm input) = stepNumber input
  /\ totalSteps (resolvePhase sm input) = totalSteps input.
Proof. unfold resolvePhase. now destruct (negb _). Qed.

Lemma resolvePhase_explicit sm input p :
  phase input = Some p -> p <> EmptyString -> resolvePhase sm input = input.
Proof.
  intros Hp Hne. unfold resolvePhase, Js.truthy_str. rewrite Hp.
  destruct (String.eqb_spec p EmptyString); [contradiction|reflexivity].
Qed.

Lemma dispatchPhase_missing input s :
  phase input = Some "tool_call" -> toolCall input = None ->
  dispatchPhase executor input s
  = (Throw (JsError "toolCall is required for tool_call phase"), s).
Proof.
  intros Hp Ht. unfold dispatchPhase, phaseIs. rewrite Hp, Ht. reflexivity.
Qed.

Lemma dispatchPhase_tool_call input tc s :
  phase input = Some "tool_call" -> toolCall input = Some tc ->
  dispatchPhase executor input s =
    match executeToolCall executor tc s with
    | (Throw e, s1) => (Throw e, s1)
    | (Return r, s1) =>
        (Return (setToolResult (Some r) input, Some r),
         snd (addToolCall {| recordStepNumber := stepNumber input;
                             recordToolCall := tc;
                             recordResult := r |} s1))
    end.
Proof.
  intros Hp Ht. unfold dispatchPhase, phaseIs. rewrite Hp, Ht. cbn.
  unfold_monad. destruct (executeToolCall executor tc s) as [[r|e] s1]; reflexivity.
Qed.

Lemma dispatchPhase_plain input s :
  phaseIs input "tool_call" = false ->
  exists last, dispatchPhase executor input s = (Return (input, last), s).
Proof.
  intros Hn. unfold dispatchPhase. rewrite Hn.
  destruct (phaseIs input "thinking"); [eexists; reflexivity|].
  destruct (phaseIs input "analysis"); eexists; reflexivity.
Qed.

(** Whatever the phase, the step handed on to [addStep] is the
    dispatched one up to its [toolResult]. *)
Lemma dispatchPhase_returns input s d s1 :
  dispatchPhase executor input s = (Return d, s1) ->
  phase (fst d) = phase input
  /\ stepNumber (fst d) = stepNumber input
  /\ totalSteps (fst d) = totalSteps input
  /\ StateManager.steps (stateManager s1) = StateManager.steps (stateManager s).
Proof.
  destruct (phaseIs input "tool_call") eqn:Hp.
  - rewrite phaseIs_decide in Hp. apply bool_decide_eq_true in Hp.
    destruct (toolCall input) as [tc|] eqn:Ht.
    + rewrite (dispatchPhase_tool_call _ _ _ Hp Ht).
      destruct (executeToolCall executor tc s) as [[r|e] s0] eqn:He; [|discriminate].
      intros [= <- <-]. cbn. repeat split.
      destruct (canExecuteToolCall (toolCallManager s)) eqn:Hc.
      * destruct (mockFor (toolCallManager s) tc) as [m|] eqn:Hm.
        { rewrite (executeToolCall_mock _ _ _ _ Hc Hm) in He. now injection He as <- <-. }
        destruct (executeToolCall_inv executor tc s Hc Hm)
          as [(c & _ & E)|(_ & dt & v & _ & E)]; rewrite E in He.
        { now injection He as <- <-. }
        destruct v; injection He as <- <-; [|reflexivity].
        now destruct (ToolCallManager.enableCache _ && success _).
      * rewrite (executeToolCall_budget _ _ _ Hc) in He. discriminate.
    + rewrite (dispatchPhase_missing _ _ Hp Ht). discriminate.
  - destruct (dispatchPhase_plain input s Hp) as [l ->].
    intros [= <- <-]. auto.
Qed.

End DispatchFacts.

Section ServerClaims.

Variable executor : ToolCallData -> Execution.

(** C8: for every input and every session [processStep] completes
    normally with a ProcessResult. When the body of its [try] block
    returns, that is the success response, with no [isError]; when the
    body throws - in validation, in the phase switch, in the tool
    invocation or in the commit - the result is the uniform error
    payload with the thrown message, one of the four error types, a
    recovery strategy, status "failed" and [isError] set to true. *)
Theorem C8_no_exception_escapes input s :
  exists r s',
    processStep executor input s = (Return r, s')
    /\ ((fst (processStepBody executor input s) = Return r
         /\ isError r = None
         /\ exists response, content r = [("text", SuccessPayload response)])
        \/ (exists e errorType recovery,
               fst (processStepBody executor input s) = Throw e
               /\ r = errorEnvelope errorType (messageOf e) recovery
               /\ isError r = Some true
               /\ In errorType
                    ["ToolCallLimitError"; "TimeoutError"; "ValidationError"; "Error"])).
Proof.
  unfold processStep, try_catch.
  destruct (processStepBody executor input s) as [[r|e] s'] eqn:Hb.
  - exists r, s'. split; [reflexivity|]. left. split; [reflexivity|].
    unfold processStepBody in Hb. unfold_monad.
    destruct (validateInput input s) as [[[]|e0] s0]; [|discriminate].
    destruct (dispatchPhase _ _ _) as [[d|e0] s1]; [|discriminate].
    destruct (addStep _ _) as [[[]|e0] s2]; [|discriminate].
    injection Hb as <- <-. split; [reflexivity|]. eexists. reflexivity.
  - exists (handleError e), s'. split; [reflexivity|]. right.
    destruct (handleError_shape e) as (ty & rec & He & Hin).
    exists e, ty, rec. rewrite He. repeat split. exact Hin.
Qed.

(** C7: a step that validation rejects, and a step whose phase is
    [tool_call] but which has no [toolCall], leaves the whole session -
    the history with it - exactly as it was: the answer is an error
    payload, [getHistory] returns what it returned before and the
    history has not grown. *)
Theorem C7_rejected_step_is_not_recorded input s :
  (exists e, fst (validateInput input s) = Throw e)
  \/ (phase input = Some "tool_call" /\ toolCall input = None) ->
  exists r,
    processStep executor input s = (Return r, s)
    /\ isError r = Some true
    /\ fst (getHistory (snd (processStep executor input s))) = fst (getHistory s)
    /\ forall h,
         fst (getHistory (snd (processStep executor input s))) = Return h ->
         length (historySteps h) = length (StateManager.steps (stateManager s)).
Proof.
  intros H.
  assert (exists e, processStep executor input s = (Return (handleError e), s)) as [e He].
  { rewrite processStep_eq.
    destruct (validateInput_cases input s) as [Hv|[e Hv]]; rewrite Hv.
    - destruct H as [[e0 H]|[Hp Ht]]; [rewrite Hv in H; discriminate|].
      exists (JsError "toolCall is required for tool_call phase").
      rewrite (resolvePhase_explicit _ _ _ Hp) by discriminate.
      destruct (adjustTotalSteps_keeps input) as (Hp' & Ht' & _).
      rewrite dispatchPhase_missing; [reflexivity| |]; congruence.
    - exists e. reflexivity. }
  exists (handleError e). rewrite He. cbn.
  destruct (handleError_shape e) as (ty & rec & -> & _).
  repeat split. now intros h [= <-].
Qed.

(** C3: once the call counter has reached
    [maxToolCalls], every step that passes validation, whose phase -
    given or inferred - is [tool_call] and that carries a tool call is
    answered with the "ToolCallLimitError" payload and leaves the session
    untouched: the counter is not incremented, no mock or cache entry is
    consulted and no execution is started. The counter grows by exactly
    one with each invocation that is not refused. *)
Theorem C3_budget_enforced input tc s :
  ToolCallManager.maxToolCalls (toolCallManager s)
    <= ToolCallManager.callCount (toolCallManager s) ->
  fst (validateInput input s) = Return tt ->
  phase (resolvePhase (stateManager s) input) = Some "tool_call" ->
  toolCall input = Some tc ->
  processStep executor input s
  = (Return (errorEnvelope "ToolCallLimitError" "Tool call limit reached"
               "Summarize progress and terminate or reset the server"), s)
  /\ executeToolCall executor tc s = (Throw (JsError "Tool call limit reached"), s)
  /\ (forall tc0 s0 r0 s0',
        executeToolCall executor tc0 s0 = (Return r0, s0') ->
        ToolCallManager.callCount (toolCallManager s0')
        = ToolCallManager.callCount (toolCallManager s0) + 1
        /\ ToolCallManager.maxToolCalls (toolCallManager s0')
           = ToolCallManager.maxToolCalls (toolCallManager s0)).
Proof.
  intros Hb Hv Hp Ht.
  assert (Hc : canExecuteToolCall (toolCallManager s) = false).
  { unfold canExecuteToolCall. apply Z.ltb_ge. exact Hb. }
  split; [|split].
  - rewrite processStep_eq.
    destruct (validateInput_cases input s) as [Hv'|[e Hv']]; rewrite Hv' in *;
      [|discriminate].
    destruct (adjustTotalSteps_keeps (resolvePhase (stateManager s) input))
      as (Hp' & Ht' & _).
    destruct (resolvePhase_keeps (stateManager s) input) as (Ht'' & _).
    rewrite (dispatchPhase_tool_call executor _ tc) by congruence.
    rewrite (executeToolCall_budget _ _ _ Hc). reflexivity.
  - now apply executeToolCall_budget.
  - intros tc0 s0 r0 s0' He.
    destruct (canExecuteToolCall (toolCallManager s0)) eqn:Hc0.
    + destruct (mockFor (toolCallManager s0) tc0) as [m|] eqn:Hm.
      { rewrite (executeToolCall_mock _ _ _ _ Hc0 Hm) in He.
        injection He as <- <-. split; reflexivity. }
      destruct (executeToolCall_inv executor tc0 s0 Hc0 Hm)
        as [(c & _ & E)|(_ & dt & v & _ & E)]; rewrite E in He.
      { injection He as <- <-. split; reflexivity. }
      destruct v; injection He as <- <-; [|split; reflexivity].
      destruct (ToolCallManager.enableCache _ && success _); split; reflexivity.
    + rewrite (executeToolCall_budget _ _ _ Hc0) in He. discriminate.
Qed.

End ServerClaims.

Section PhaseAndTotals.

Variable executor : ToolCallData -> Execution.

(** A successful answer comes from a step that passed validation, was
    dispatched and was appended to the history. *)
Lemma processStep_success input s r s' :
  processStep executor input s = (Return r, s') ->
  isError r = None ->
  validateInput input s = (Return tt, s)
  /\ exists d s1,
      dispatchPhase executor
        (adjustTotalSteps (resolvePhase (stateManager s) input)) s = (Return d, s1)
      /\ r = buildResponse (fst d) (snd d) (getHistoryOf (stateManager s'))
      /\ StateManager.steps (stateManager s')
         = (StateManager.steps (stateManager s1) ++ [fst d])%list.
Proof.
  rewrite processStep_eq. intros H Hok.
  assert (Hne : forall e, isError (handleError e) <> None).
  { intros e. destruct (handleError_shape e) as (ty & rec & -> & _). discriminate. }
  destruct (validateInput_cases input s) as [Hv|[e Hv]]; rewrite Hv in H.
  - split; [exact Hv|].
    destruct (dispatchPhase _ _ _) as [[d|e] s1] eqn:Hd.
    + pose proof (addStep_steps (fst d) s1) as (Hs & _).
      destruct (addStep (fst d) s1) as [[[]|e] s2].
      * injection H as <- <-. exists d, s1. auto.
      * injection H as <- <-. now destruct (Hne e).
    + injection H as <- <-. now destruct (Hne e).
  - injection H as <- <-. now destruct (Hne e).
Qed.

Lemma inferPhase_spec sm input n :
  phase input = None -> stepNumber input = Some n ->
  inferPhase sm input
  = phaseAfter (bool_decide (is_Some (toolCall input))) (StateManager.steps sm)
      (Js.toDouble (n - 1)).
Proof.
  intros Hp Hn. unfold inferPhase, phaseAfter, getStep. rewrite Hp, Hn. cbn.
  destruct (bool_decide (is_Some (toolCall input))); [reflexivity|].
  destruct (find _ _) as [previous|]; [|reflexivity].
  now rewrite phaseIs_decide.
Qed.

Lemma phaseAfter_comp toolCallPresent stored (a b : Js.number) :
  (a == b)%Q -> phaseAfter toolCallPresent stored a = phaseAfter toolCallPresent stored b.
Proof.
  intros H. unfold phaseAfter. destruct toolCallPresent; [reflexivity|].
  replace (find _ stored)
    with (find (fun s => match stepNumber s with
                         | Some m => Qeq_bool m b
                         | None => false
                         end) stored); [reflexivity|].
  induction stored as [|x l IH]; [reflexivity|]. cbn. rewrite IH.
  destruct (stepNumber x) as [m|]; [|reflexivity].
  replace (Qeq_bool m a) with (Qeq_bool m b); [reflexivity|].
  destruct (Qeq_bool m b) eqn:E.
  - symmetry. apply Qeq_bool_iff. apply Qeq_bool_iff in E. now rewrite H.
  - destruct (Qeq_bool m a) eqn:E'; [|reflexivity].
    apply Qeq_bool_iff in E'. apply Qeq_bool_neq in E. exfalso. apply E. now rewrite <- H.
Qed.

(** C1, as amended: for a step that passes validation and names no
    phase, the phase the engine resolves is a function of the presence of
    [toolCall] and of the stored steps: [tool_call] with a tool call, and
    otherwise decided by the first stored step whose number equals the
    incoming number minus one as the subtraction of JavaScript numbers
    gives it. For every JavaScript number up to 2^53 that is the incoming
    number minus one itself, and the phase is the one the specification
    words. The resolved phase is the phase reported and stored when the
    step is accepted, and inference over an identical stored history gives
    the identical phase. *)
Theorem C1_phase_inference input s :
  fst (validateInput input s) = Return tt ->
  phase input = None ->
  exists n,
    stepNumber input = Some n
    /\ phase (resolvePhase (stateManager s) input)
       = Some (phaseAfter (bool_decide (is_Some (toolCall input)))
                 (StateManager.steps (stateManager s)) (Js.toDouble (n - 1)))
    /\ (Js.isDouble n = true -> (n <= inject_Z (2 ^ 53))%Q ->
        phase (resolvePhase (stateManager s) input)
        = Some (specPhase (bool_decide (is_Some (toolCall input)))
                  (StateManager.steps (stateManager s)) n))
    /\ (forall r s',
          processStep executor input s = (Return r, s') -> isError r = None ->
          exists response stored,
            content r = [("text", SuccessPayload response)]
            /\ responsePhase response = phase (resolvePhase (stateManager s) input)
            /\ last (StateManager.steps (stateManager s')) = Some stored
            /\ phase stored = responsePhase response)
    /\ (forall s2,
          StateManager.steps (stateManager s2) = StateManager.steps (stateManager s) ->
          inferPhase (stateManager s2) input = inferPhase (stateManager s) input).
Proof.
  intros Hv Hp.
  destruct (validateInput_cases input s) as [Hv'|[e Hv']]; rewrite Hv' in Hv;
    [|discriminate].
  destruct (validateInput_accepts _ _ _ Hv') as (n & total & Hn & _ & Hn1 & _).
  exists n. split; [exact Hn|].
  assert (Hr : phase (resolvePhase (stateManager s) input)
               = Some (phaseAfter (bool_decide (is_Some (toolCall input)))
                         (StateManager.steps (stateManager s)) (Js.toDouble (n - 1)))).
  { unfold resolvePhase. rewrite Hp. cbn. now rewrite (inferPhase_spec _ _ n). }
  split; [exact Hr|]. split; [|split].
  - intros Hd H53. rewrite Hr. f_equal. unfold specPhase.
    apply phaseAfter_comp. now apply toDouble_pred_exact.
  - intros r s' H Hok.
    destruct (processStep_success _ _ _ _ H Hok) as (_ & d & s1 & Hd & -> & Hs).
    destruct (dispatchPhase_returns _ _ _ _ _ Hd) as (Hpd & _).
    destruct (adjustTotalSteps_keeps (resolvePhase (stateManager s) input)) as (Hpa & _).
    eexists _, (fst d). split; [reflexivity|]. cbn.
    split; [congruence|]. split; [|reflexivity].
    rewrite Hs. apply last_snoc.
  - intros s2 Hs. rewrite !(inferPhase_spec _ _ n) by assumption. now rewrite Hs.
Qed.

(** The amended statement of C2: the [totalSteps] stored and reported
    for an accepted step is the larger of the [totalSteps] and the
    [stepNumber] of that very step; it is never below either. What was
    stored for earlier steps plays no part. *)
Theorem C2_totalSteps_is_raised_per_step input s r s' :
  processStep executor input s = (Return r, s') ->
  isError r = None ->
  exists n total response,
    stepNumber input = Some n
    /\ totalSteps input = Some total
    /\ storedTotalSteps s' = Some (Qmax total n)
    /\ content r = [("text", SuccessPayload response)]
    /\ responseTotalSteps response = Some (Qmax total n)
    /\ (total <= Qmax total n)%Q
    /\ (n <= Qmax total n)%Q.
Proof.
  intros H Hok.
  destruct (processStep_success _ _ _ _ H Hok) as (Hv & d & s1 & Hd & -> & Hs).
  destruct (validateInput_accepts _ _ _ Hv) as (n & total & Hn & Ht & _).
  destruct (dispatchPhase_returns _ _ _ _ _ Hd) as (_ & _ & Htd & _).
  destruct (resolvePhase_keeps (stateManager s) input) as (_ & Hn' & Ht').
  assert (Hmax : totalSteps (fst d) = Some (Qmax total n)).
  { rewrite Htd. apply adjustTotalSteps_max; congruence. }
  exists n, total. eexists. split; [exact Hn|]. split; [exact Ht|].
  split; [|split; [reflexivity|split; [exact Hmax|split]]].
  - unfold storedTotalSteps. rewrite Hs, last_snoc. exact Hmax.
  - apply Q.le_max_l.
  - apply Q.le_max_r.
Qed.

(** Every step whose [stepNumber] is absent, zero or below one is
    refused with the generic error type, whatever else it carries. *)
Lemma processStep_stepNumber_refused input s :
  negb (Js.truthy_num (stepNumber input)) || Js.lt (stepNumber input) (Some 1%Q) = true ->
  processStep executor input s
  = (Return (errorEnvelope "Error" "stepNumber must be a positive integer"
               "Check input parameters and try again"), s).
Proof.
  intros H. rewrite processStep_eq. unfold validateInput, throw. now rewrite H.
Qed.

(** C4, evaluated: a step whose [stepNumber] is 0 is refused with the
    message "stepNumber must be a positive integer" and no change to
    the session, but the error type of the payload is "Error"; a step
    whose [stepNumber] is 3/2 is accepted and stored. *)
Theorem C4_stepNumber_rejection_evaluated s :
  processStep executor (Sample.step 0 3 None None) s
  = (Return (errorEnvelope "Error" "stepNumber must be a positive integer"
               "Check input parameters and try again"), s)
  /\ exists r s',
      processStep executor (Sample.step (3 # 2) 3 None None) Sample.fresh = (Return r, s')
      /\ isError r = None
      /\ stepNumber <$> StateManager.steps (stateManager s') = [Some (3 # 2)].
Proof.
  split; [reflexivity|].
  eexists _, _. split; [reflexivity|]. split; reflexivity.
Qed.

End PhaseAndTotals.

(** The budget of one is spent by the first tool call; the second tool
    call step is refused. *)
Lemma C3_witness :
  processStep simulateToolExecution (Sample.step 2 3 None (Some Sample.fetchPatient))
    (snd (processStep simulateToolExecution (Sample.step 1 3 None (Some Sample.fetch))
            (newServer (Sample.budget 1) 0)))
  = (Return (errorEnvelope "ToolCallLimitError" "Tool call limit reached"
               "Summarize progress and terminate or reset the server"),
     snd (processStep simulateToolExecution (Sample.step 1 3 None (Some Sample.fetch))
            (newServer (Sample.budget 1) 0))).
Proof.
  apply (C3_budget_enforced simulateToolExecution
           (Sample.step 2 3 None (Some Sample.fetchPatient)) Sample.fetchPatient
           (snd (processStep simulateToolExecution (Sample.step 1 3 None (Some Sample.fetch))
                   (newServer (Sample.budget 1) 0)))
           (proj1 (Z.leb_le 1 1) eq_refl) eq_refl eq_refl eq_refl).
Defined.

(** A [tool_call] step without a tool call, sent after one accepted
    step, is refused and the history keeps its single step. *)
Lemma C7_witness :
  exists r,
    processStep simulateToolExecution (Sample.step 2 3 (Some "tool_call") None)
      (snd (processStep simulateToolExecution (Sample.step 1 3 None None) Sample.fresh))
    = (Return r, snd (processStep simulateToolExecution (Sample.step 1 3 None None) Sample.fresh))
    /\ isError r = Some true.
Proof.
  destruct (C7_rejected_step_is_not_recorded simulateToolExecution
              (Sample.step 2 3 (Some "tool_call") None)
              (snd (processStep simulateToolExecution (Sample.step 1 3 None None) Sample.fresh))
              (or_intror (conj eq_refl eq_refl))) as (r & H & He & _).
  exists r. split; [exact H|exact He].
Defined.

(** After a thinking step and a tool call step, a third step without
    phase or tool call resolves to [analysis], the phase the
    specification words. *)
Lemma C1_witness :
  phase (resolvePhase (stateManager Scenario.afterCall) (Sample.step 3 3 None None))
  = Some "analysis"
  /\ specPhase false (StateManager.steps (stateManager Scenario.afterCall)) 3%Q
     = "analysis".
Proof.
  destruct (C1_phase_inference simulateToolExecution (Sample.step 3 3 None None)
              Scenario.afterCall eq_refl eq_refl) as (n & Hn & _ & Hr & _).
  injection Hn as <-.
  rewrite (Hr eq_refl ltac:(vm_compute; discriminate)). split; reflexivity.
Defined.

(** C1 as stated fails: 2^53 + 2 is a JavaScript number and 2^53 + 1 is
    not, so that the subtraction [stepNumber - 1] gives 2^53. After a
    tool call stored as step 2^53, the step numbered 2^53 + 2, without
    phase or tool call, passes validation and is resolved to [analysis],
    although no stored step has its number minus one: as the
    specification words it the phase would be [thinking]. *)
Lemma C1_counterexample :
  Js.isDouble (inject_Z (2 ^ 53 + 2)) = true
  /\ Js.isDouble (inject_Z (2 ^ 53 + 1)) = false
  /\ stepNumber Scenario.lateStep = Some (inject_Z (2 ^ 53 + 2))
  /\ fst (validateInput Scenario.lateStep Scenario.lateCall) = Return tt
  /\ phase Scenario.lateStep = None
  /\ phase (resolvePhase (stateManager Scenario.lateCall) Scenario.lateStep)
     = Some "analysis"
  /\ (exists r s' response,
        processStep simulateToolExecution Scenario.lateStep Scenario.lateCall
        = (Return r, s')
        /\ content r = [("text", SuccessPayload response)]
        /\ responsePhase response = Some "analysis")
  /\ specPhase (bool_decide (is_Some (toolCall Scenario.lateStep)))
       (StateManager.steps (stateManager Scenario.lateCall)) (inject_Z (2 ^ 53 + 2))
     = "thinking"
  /\ phase (resolvePhase (stateManager Scenario.lateCall) Scenario.lateStep)
     <> Some (specPhase (bool_decide (is_Some (toolCall Scenario.lateStep)))
                (StateManager.steps (stateManager Scenario.lateCall))
                (inject_Z (2 ^ 53 + 2))).
Proof.
  split; [vm_compute; reflexivity|]. split; [vm_compute; reflexivity|].
  split; [reflexivity|]. split; [vm_compute; reflexivity|]. split; [reflexivity|].
  split; [vm_compute; reflexivity|]. split.
  { eexists _, _, _. split; [vm_compute; reflexivity|]. split; reflexivity. }
  split; [vm_compute; reflexivity|].
  intros H; vm_compute in H; discriminate.
Qed.

(** Step 5 of an estimated 3 is stored with [totalSteps] 5. *)
Lemma C2_witness :
  storedTotalSteps
    (snd (processStep simulateToolExecution (Sample.step 5 3 (Some "thinking") None)
            Sample.fresh))
  = Some 5%Q.
Proof.
  destruct (C2_totalSteps_is_raised_per_step simulateToolExecution
              (Sample.step 5 3 (Some "thinking") None) Sample.fresh _ _
              (surjective_pairing _) eq_refl)
    as (n & total & response & Hn & Ht & Hs & _).
  injection Hn as <-. injection Ht as <-. rewrite Hs. reflexivity.
Defined.

(** C2 as stated fails: after a first step with [totalSteps] 10, a second
    step with [stepNumber] 2 and [totalSteps] 3 is stored with
    [totalSteps] 3, which is neither the maximum of 3, 2 and the 10 stored
    before nor at least that 10. *)
Lemma C2_counterexample :
  exists before after,
    storedTotalSteps
      (snd (processStep simulateToolExecution (Sample.step 1 10 None None) Sample.fresh))
    = Some before
    /\ storedTotalSteps
         (snd (processStep simulateToolExecution (Sample.step 2 3 None None)
            (snd (processStep simulateToolExecution (Sample.step 1 10 None None)
                    Sample.fresh))))
       = Some after
    /\ ~ (after == Qmax (Qmax 3 2) before)%Q
    /\ (after < before)%Q.
Proof.
  exists 10%Q, 3%Q. split; [reflexivity|]. split; [reflexivity|].
  split; [intros H; vm_compute in H; discriminate|reflexivity].
Qed.

Section ResetAndCache.

Variable executor : ToolCallData -> Execution.

(** C9: [reset] puts the call counter back to 0, empties the result
    cache and installs an empty history, and keeps the injected mock
    results: a tool call matching one of them, issued after the reset
    within a positive budget, returns that fixture as it was injected. *)
Theorem C9_reset_keeps_mock_results s mocks toolCall fixture :
  ToolCallManager.mockResults (toolCallManager s) = Some mocks ->
  mocks !! getCacheKey toolCall = Some fixture ->
  0 < ToolCallManager.maxToolCalls (toolCallManager s) ->
  ToolCallManager.callCount (toolCallManager (snd (reset s))) = 0
  /\ ToolCallManager.resultCache (toolCallManager (snd (reset s))) = ∅
  /\ stateManager (snd (reset s)) = newStateManager
  /\ fst (getHistory (snd (reset s)))
     = Return {| historySteps := []; historyBranches := []; historyToolCalls := [];
                 statistics := {| statTotalSteps := 0%nat; totalToolCalls := 0%nat;
                                  successfulToolCalls := 0%nat; failedToolCalls := 0%nat;
                                  totalExecutionTime := 0 |} |}
  /\ ToolCallManager.mockResults (toolCallManager (snd (reset s))) = Some mocks
  /\ fst (executeToolCall executor toolCall (snd (reset s))) = Return fixture.
Proof.
  intros Hm Hf Hb. repeat split; try reflexivity; try exact Hm.
  rewrite (executeToolCall_mock executor toolCall (snd (reset s)) fixture).
  - reflexivity.
  - unfold canExecuteToolCall. cbn. now apply Z.ltb_lt.
  - unfold mockFor. cbn. rewrite Hm. exact Hf.
Qed.

Lemma race_resolved run timeout dt r :
  race run timeout = (dt, Resolved r) -> outcome run = Resolved r.
Proof.
  unfold race. destruct (_ <? _); [discriminate|]. now intros [= _ ->].
Qed.

Lemma executeToolCall_cacheIsRaw toolCall s :
  cacheIsRaw executor (toolCallManager s) ->
  cacheIsRaw executor (toolCallManager (snd (executeToolCall executor toolCall s))).
Proof.
  intros Hraw.
  destruct (canExecuteToolCall (toolCallManager s)) eqn:Hc.
  - destruct (mockFor (toolCallManager s) toolCall) as [m|] eqn:Hm.
    { rewrite (executeToolCall_mock _ _ _ _ Hc Hm). exact Hraw. }
    destruct (executeToolCall_inv executor toolCall s Hc Hm)
      as [(c & _ & ->)|(_ & dt & v & Hr & ->)]; [exact Hraw|].
    destruct v as [r|e]; [|exact Hraw].
    destruct (ToolCallManager.enableCache (toolCallManager s) && success r) eqn:Hs;
      [|exact Hraw].
    apply andb_true_iff in Hs as [_ Hs].
    intros key r0. cbn. intros Hl. apply lookup_insert_Some in Hl as [[<- <-]|[_ Hl]].
    + split; [exact Hs|]. exists toolCall. split; [reflexivity|].
      apply (race_resolved _ _ _ _ Hr).
    + now apply Hraw.
  - rewrite (executeToolCall_budget _ _ _ Hc). exact Hraw.
Qed.

Lemma dispatchPhase_manager input s :
  toolCallManager (snd (dispatchPhase executor input s)) = toolCallManager s
  \/ exists tc,
      toolCallManager (snd (dispatchPhase executor input s))
      = toolCallManager (snd (executeToolCall executor tc s)).
Proof.
  destruct (phaseIs input "tool_call") eqn:Hp.
  - rewrite phaseIs_decide in Hp. apply bool_decide_eq_true in Hp.
    destruct (toolCall input) as [tc|] eqn:Ht.
    + right. exists tc. rewrite (dispatchPhase_tool_call _ _ _ _ Hp Ht).
      now destruct (executeToolCall executor tc s) as [[r|e] s1].
    + left. now rewrite (dispatchPhase_missing _ _ _ Hp Ht).
  - left. destruct (dispatchPhase_plain executor input s Hp) as [l ->]. reflexivity.
Qed.

Lemma processStep_cacheIsRaw input s :
  cacheIsRaw executor (toolCallManager s) ->
  cacheIsRaw executor (toolCallManager (snd (processStep executor input s))).
Proof.
  intros Hraw. rewrite processStep_eq.
  destruct (validateInput_cases input s) as [Hv|[e Hv]]; rewrite Hv; [|exact Hraw].
  assert (Hd : cacheIsRaw executor
            (toolCallManager (snd (dispatchPhase executor
               (adjustTotalSteps (resolvePhase (stateManager s) input)) s)))).
  { destruct (dispatchPhase_manager
                (adjustTotalSteps (resolvePhase (stateManager s) input)) s)
      as [->|[tc ->]]; [exact Hraw|now apply executeToolCall_cacheIsRaw]. }
  destruct (dispatchPhase _ _ _) as [[d|e] s1]; [|exact Hd].
  pose proof (addStep_steps (fst d) s1) as (_ & _ & Hm & _).
  destruct (addStep (fst d) s1) as [[[]|e] s2]; cbn in *; now rewrite Hm.
Qed.

(** The invariant of the result cache. *)
Lemma reachable_cacheIsRaw s :
  reachable executor s -> cacheIsRaw executor (toolCallManager s).
Proof.
  induction 1 as [partial now|s input _ IH|s tc _ IH|s _ _|s mocks _ IH|s dt _ IH _].
  - intros key r Hl. cbn in Hl. now rewrite lookup_empty in Hl.
  - now apply processStep_cacheIsRaw.
  - now apply executeToolCall_cacheIsRaw.
  - intros key r Hl. cbn in Hl. now rewrite lookup_empty in Hl.
  - exact IH.
  - exact IH.
Qed.

End ResetAndCache.



(** Mock results injected after a cached tool call survive the reset and
    are served in place of an execution. *)
Lemma C9_witness :
  fst (executeToolCall simulateToolExecution Sample.fetch
         (snd (reset
            (snd (injectMockResults (<[getCacheKey Sample.fetch := Sample.fixture]> ∅)
               (snd (processStep simulateToolExecution
                       (Sample.step 1 3 None (Some Sample.fetch)) Sample.fresh)))))))
  = Return Sample.fixture.
Proof.
  destruct (C9_reset_keeps_mock_results simulateToolExecution
              (snd (injectMockResults (<[getCacheKey Sample.fetch := Sample.fixture]> ∅)
                 (snd (processStep simulateToolExecution
                         (Sample.step 1 3 None (Some Sample.fetch)) Sample.fresh))))
              (<[getCacheKey Sample.fetch := Sample.fixture]> ∅)
              Sample.fetch Sample.fixture) as (_ & _ & _ & _ & _ & H);
    [reflexivity | reflexivity | reflexivity | exact H].
Defined.

Example includes_mid : Js.includes "Tool call limit reached" "limit reached" = true.
Proof. reflexivity. Qed.

Example stringify_obj :
  Json.stringify (JObj [("q", JStr "x"); ("n", JNum (-3)); ("l", JArr [JBool true; JNull])])
  = String "{" (String Json.quote ("q" ++ String Json.quote (":" ++ String Json.quote ("x"
      ++ String Json.quote ("," ++ String Json.quote ("n" ++ String Json.quote
      (":-3," ++ String Json.quote ("l" ++ String Json.quote ":[true,null]}")))))))).
Proof. reflexivity. Qed.

Example iso_epoch : Clock.toISOString 0 = "1970-01-01T00:00:00.000Z".
Proof. reflexivity. Qed.

Example iso_2026 : Clock.toISOString 1793577600123 = "2026-11-02T00:00:00.123Z".
Proof. reflexivity. Qed.

(** 2^53 + 1 lies half way between two JavaScript numbers and goes to
    the even one; one tenth is no JavaScript number, three halves are. *)
Example toDouble_tie : (Js.toDouble (inject_Z (2 ^ 53 + 1)) == inject_Z (2 ^ 53))%Q.
Proof. vm_compute. reflexivity. Qed.

Example toDouble_above : (Js.toDouble (inject_Z (2 ^ 53 + 3)) == inject_Z (2 ^ 53 + 4))%Q.
Proof. vm_compute. reflexivity. Qed.

Example isDouble_tenth : Js.isDouble (1 # 10) = false /\ Js.isDouble (3 # 2) = true.
Proof. split; vm_compute; reflexivity. Qed.

Example objectKeys_order :
  Js.objectKeys ["b"; "10"; "2"; "01"; "a"; "0"] = ["0"; "2"; "10"; "b"; "01"; "a"].
Proof. reflexivity. Qed.

(** * Further properties of the engine *)

Section Effects.

Variable executor : ToolCallData -> Execution.

(** What an invocation that is not refused leaves alone. *)
Lemma executeToolCall_frame toolCall s r s' :
  executeToolCall executor toolCall s = (Return r, s') ->
  canExecuteToolCall (toolCallManager s) = true
  /\ stateManager s' = stateManager s
  /\ config s' = config s
  /\ ToolCallManager.maxToolCalls (toolCallManager s')
     = ToolCallManager.maxToolCalls (toolCallManager s)
  /\ ToolCallManager.defaultTimeout (toolCallManager s')
     = ToolCallManager.defaultTimeout (toolCallManager s)
  /\ ToolCallManager.enableCache (toolCallManager s')
     = ToolCallManager.enableCache (toolCallManager s)
  /\ ToolCallManager.mockResults (toolCallManager s')
     = ToolCallManager.mockResults (toolCallManager s)
  /\ ToolCallManager.callCount (toolCallManager s')
     = ToolCallManager.callCount (toolCallManager s) + 1.
Proof.
  intros He.
  destruct (canExecuteToolCall (toolCallManager s)) eqn:Hc.
  - split; [reflexivity|].
    destruct (mockFor (toolCallManager s) toolCall) as [m|] eqn:Hm.
    { rewrite (executeToolCall_mock _ _ _ _ Hc Hm) in He.
      injection He as <- <-. repeat split. }
    destruct (executeToolCall_inv executor toolCall s Hc Hm)
      as [(c & _ & E)|(_ & dt & v & _ & E)]; rewrite E in He.
    { injection He as <- <-. repeat split. }
    destruct v; injection He as <- <-; [|repeat split].
    destruct (ToolCallManager.enableCache _ && success _); repeat split.
  - rewrite (executeToolCall_budget _ _ _ Hc) in He. discriminate.
Qed.

(** The two ways the [switch] of [processStep] completes normally. *)
Lemma dispatchPhase_effect input s d s1 :
  dispatchPhase executor input s = (Return d, s1) ->
  (phaseIs input "tool_call" = false
   /\ fst d = input
   /\ snd d = (if phaseIs input "analysis" then getLastToolResult (stateManager s) else None)
   /\ s1 = s)
  \/ (exists tc r s0,
         phase input = Some "tool_call"
         /\ toolCall input = Some tc
         /\ executeToolCall executor tc s = (Return r, s0)
         /\ fst d = setToolResult (Some r) input
         /\ snd d = Some r
         /\ s1 = snd (addToolCall {| recordStepNumber := stepNumber input;
                                     recordToolCall := tc;
                                     recordResult := r |} s0)).
Proof.
  destruct (phaseIs input "tool_call") eqn:Hp.
  - pose proof Hp as Hp'. rewrite phaseIs_decide in Hp'. apply bool_decide_eq_true in Hp'.
    destruct (toolCall input) as [tc|] eqn:Ht.
    + rewrite (dispatchPhase_tool_call _ _ _ _ Hp' Ht).
      destruct (executeToolCall executor tc s) as [[r|e] s0] eqn:He; [|discriminate].
      intros [= <- <-]. right. exists tc, r, s0. repeat split; assumption.
    + rewrite (dispatchPhase_missing _ _ _ Hp' Ht). discriminate.
  - unfold dispatchPhase. rewrite Hp. unfold phaseIs in *.
    destruct (phase input) as [p|]; cbn.
    + destruct (String.eqb p "thinking") eqn:E1.
      * apply String.eqb_eq in E1 as ->. cbn. intros [= <- <-]. left. auto.
      * destruct (String.eqb p "analysis"); intros [= <- <-]; left; auto.
    + intros [= <- <-]. left. auto.
Qed.

(** [processStep] either refuses the step and leaves the session as it
    was, or dispatches the normalised step and hands it to [addStep]. *)
Lemma processStep_commit input s :
  snd (processStep executor input s) = s
  \/ exists d s1,
      validateInput input s = (Return tt, s)
      /\ dispatchPhase executor
           (adjustTotalSteps (resolvePhase (stateManager s) input)) s = (Return d, s1)
      /\ snd (processStep executor input s) = snd (addStep (fst d) s1).
Proof.
  rewrite processStep_eq.
  destruct (validateInput_cases input s) as [Hv|[e Hv]]; rewrite Hv; [|now left].
  destruct (dispatchPhase _ _ _) as [[d|e] s1] eqn:Hd.
  - right. exists d, s1. split; [reflexivity|]. split; [reflexivity|].
    now destruct (addStep (fst d) s1) as [[[]|e] s2].
  - left. cbn.
    destruct (phaseIs (adjustTotalSteps (resolvePhase (stateManager s) input)) "tool_call")
      eqn:Hp.
    + rewrite phaseIs_decide in Hp. apply bool_decide_eq_true in Hp.
      destruct (toolCall (adjustTotalSteps (resolvePhase (stateManager s) input)))
        as [tc|] eqn:Ht.
      * rewrite (dispatchPhase_tool_call _ _ _ _ Hp Ht) in Hd.
        destruct (executeToolCall executor tc s) as [[r|e0] s0] eqn:He; [discriminate|].
        injection Hd as <- <-. now destruct (executeToolCall_throws _ _ _ _ _ He) as (_ & _ & ->).
      * rewrite (dispatchPhase_missing _ _ _ Hp Ht) in Hd. now injection Hd as <- <-.
    + destruct (dispatchPhase_plain executor _ s Hp) as [l Hl]. rewrite Hl in Hd. discriminate.
Qed.

(** What [addStep] does to the branch index. *)
Lemma addStep_branches step s :
  let registers := Js.truthy_num (branchFromStep step) && Js.truthy_str (branchId step) in
  let id := default EmptyString (branchId step) in
  StateManager.branches (stateManager (snd (addStep step s)))
  = if registers && negb (inheritedKey id)
    then pushBranch id step (StateManager.branches (stateManager s))
    else StateManager.branches (stateManager s).
Proof.
  unfold addStep. unfold_monad.
  destruct (Js.truthy_num _ && Js.truthy_str _); [|reflexivity].
  destruct (inheritedKey _); reflexivity.
Qed.

End Effects.

Section Validation.

Variable executor : ToolCallData -> Execution.

Lemma truthy_num_ge_1 (n : Js.number) :
  (1 <= n)%Q -> Js.truthy_num (@Some Js.number n) = true.
Proof.
  intros H. cbn. destruct (Qeq_bool n 0) eqn:E; [|reflexivity].
  apply Qeq_bool_iff in E. rewrite E in H. now compute in H.
Qed.

Lemma lt_1_false (n : Js.number) :
  (1 <= n)%Q -> Js.lt (@Some Js.number n) (@Some Q 1%Q) = false.
Proof.
  intros H. cbn. destruct (n ?= 1)%Q eqn:E; try reflexivity.
  apply Qlt_alt in E. now apply Qle_not_lt in H.
Qed.

Lemma phase_listed input p :
  phase input = Some p ->
  existsb (phaseIs input) ["thinking"; "tool_call"; "analysis"] = true
  <-> In p ["thinking"; "tool_call"; "analysis"].
Proof.
  intros Hp. unfold phaseIs. rewrite Hp. cbn.
  rewrite !orb_true_iff, !String.eqb_eq. intuition congruence.
Qed.

(** What a step that passed validation is known to satisfy. *)
Lemma validateInput_accepted input s :
  validateInput input s = (Return tt, s) ->
  (exists n, stepNumber input = Some n /\ (1 <= n)%Q)
  /\ (exists total, totalSteps input = Some total /\ (1 <= total)%Q)
  /\ is_Some (nextStepNeeded input)
  /\ (phase input = None
      \/ phase input = Some EmptyString
      \/ exists p, phase input = Some p
                   /\ In p ["thinking"; "tool_call"; "analysis"]).
Proof.
  intros H.
  destruct (validateInput_accepts _ _ _ H) as (n & total & Hn & Ht & Hn1 & Ht1 & Hnext).
  split; [eauto|]. split; [eauto|]. split; [exact Hnext|].
  unfold validateInput, throw, ret in H.
  rewrite Hn, Ht, (truthy_num_ge_1 _ Hn1), (truthy_num_ge_1 _ Ht1),
    (lt_1_false _ Hn1), (lt_1_false _ Ht1) in H. cbn -[existsb] in H.
  rewrite (bool_decide_eq_true_2 _ Hnext) in H. cbn -[existsb] in H.
  destruct (phase input) as [p|] eqn:Hp; [|now left].
  right. unfold Js.truthy_str in H.
  destruct (String.eqb_spec p EmptyString) as [->|Hne]; [now left|right].
  exists p. split; [reflexivity|]. cbn -[existsb] in H.
  destruct (existsb _ _) eqn:E; [|discriminate].
  now apply (phase_listed input p Hp).
Qed.

(** X1: [validateInput] accepts a step exactly when its [stepNumber]
    and its [totalSteps] are numbers of at least 1 (integral or not), it
    has a [nextStepNeeded], and its [phase] is absent, empty or one of
    the three phase names. *)
Theorem X1_validateInput_accepts_iff input s :
  validateInput input s = (Return tt, s)
  <-> ((exists n, stepNumber input = Some n /\ (1 <= n)%Q)
       /\ (exists total, totalSteps input = Some total /\ (1 <= total)%Q)
       /\ is_Some (nextStepNeeded input)
       /\ (phase input = None
           \/ phase input = Some EmptyString
           \/ exists p, phase input = Some p
                        /\ In p ["thinking"; "tool_call"; "analysis"])).
Proof.
  split.
  - apply validateInput_accepted.
  - intros ((n & Hn & Hn1) & (total & Ht & Ht1) & Hnext & Hphase).
    unfold validateInput, throw, ret.
    rewrite Hn, Ht, (truthy_num_ge_1 _ Hn1), (truthy_num_ge_1 _ Ht1),
      (lt_1_false _ Hn1), (lt_1_false _ Ht1). cbn -[existsb].
    rewrite (bool_decide_eq_true_2 _ Hnext). cbn -[existsb].
    destruct Hphase as [Hp|[Hp|(p & Hp & Hin)]].
    + now rewrite Hp.
    + now rewrite Hp.
    + apply (phase_listed input p Hp) in Hin. rewrite Hin, andb_false_r. reflexivity.
Qed.

(** X2: the checks run in the order stepNumber, totalSteps,
    nextStepNeeded, phase, and the first one that fails decides the
    answer. With a valid [stepNumber]: a bad [totalSteps] gives the
    generic "Error"; otherwise a missing [nextStepNeeded] gives
    "ValidationError", whatever the phase; otherwise an unknown phase
    name gives the generic "Error". The session is left as it was. *)
Theorem X2_first_violation_decides input s n :
  stepNumber input = Some n -> (1 <= n)%Q ->
  ((totalSteps input = None \/ exists total, totalSteps input = Some total /\ (total < 1)%Q) ->
   processStep executor input s
   = (Return (errorEnvelope "Error" "totalSteps must be a positive integer"
                "Check input parameters and try again"), s))
  /\ (forall total, totalSteps input = Some total -> (1 <= total)%Q ->
      (nextStepNeeded input = None ->
       processStep executor input s
       = (Return (errorEnvelope "ValidationError" "nextStepNeeded is required"
                    "Provide all required fields"), s))
      /\ (forall p, is_Some (nextStepNeeded input) ->
          phase input = Some p -> p <> EmptyString ->
          ~ In p ["thinking"; "tool_call"; "analysis"] ->
          processStep executor input s
          = (Return (errorEnvelope "Error"
                       "phase must be one of: thinking, tool_call, analysis"
                       "Check input parameters and try again"), s))).
Proof.
  intros Hn Hn1. split.
  - intros Hbad. rewrite processStep_eq. unfold validateInput, throw.
    rewrite Hn, (truthy_num_ge_1 _ Hn1), (lt_1_false _ Hn1). cbn -[handleError existsb].
    assert (Hb : negb (Js.truthy_num (totalSteps input))
                 || Js.lt (totalSteps input) (Some 1%Q) = true).
    { destruct Hbad as [->|(total & -> & Hlt)]; [reflexivity|].
      apply orb_true_iff. right. unfold Js.lt.
      destruct (Qcompare_spec total 1) as [E|E|E]; [|reflexivity|].
      - rewrite E in Hlt. now apply Qlt_irrefl in Hlt.
      - exfalso. apply (Qlt_irrefl 1). now apply Qlt_trans with total. }
    now rewrite Hb.
  - intros total Ht Ht1. split.
    + intros Hnext. rewrite processStep_eq. unfold validateInput, throw.
      rewrite Hn, Ht, (truthy_num_ge_1 _ Hn1), (truthy_num_ge_1 _ Ht1),
        (lt_1_false _ Hn1), (lt_1_false _ Ht1), Hnext. reflexivity.
    + intros p Hnext Hp Hne Hnot. rewrite processStep_eq. unfold validateInput, throw.
      rewrite Hn, Ht, (truthy_num_ge_1 _ Hn1), (truthy_num_ge_1 _ Ht1),
        (lt_1_false _ Hn1), (lt_1_false _ Ht1). cbn -[handleError existsb].
      rewrite (bool_decide_eq_true_2 _ Hnext). cbn -[handleError existsb].
      assert (Hl : existsb (phaseIs input) ["thinking"; "tool_call"; "analysis"] = false).
      { destruct (existsb _ _) eqn:E; [|reflexivity].
        now apply (phase_listed input p Hp) in E. }
      unfold Js.truthy_str. rewrite Hp, Hl.
      destruct (String.eqb_spec p EmptyString); [contradiction|reflexivity].
Qed.

End Validation.

(** A step without [nextStepNeeded] and with an unknown phase name is
    answered for the former. *)
Lemma X2_witness :
  processStep simulateToolExecution Scenario.unfinished Sample.fresh
  = (Return (errorEnvelope "ValidationError" "nextStepNeeded is required"
               "Provide all required fields"), Sample.fresh).
Proof.
  destruct (X2_first_violation_decides simulateToolExecution Scenario.unfinished
              Sample.fresh 1%Q eq_refl ltac:(discriminate)) as [_ H].
  destruct (H 1%Q eq_refl ltac:(discriminate)) as [H' _].
  exact (H' eq_refl).
Defined.

Section ErrorsAndGrowth.

Variable executor : ToolCallData -> Execution.

Lemma validateInput_throws input s e s' :
  validateInput input s = (Throw e, s') ->
  In e [JsError "stepNumber must be a positive integer";
        JsError "totalSteps must be a positive integer";
        JsError "nextStepNeeded is required";
        JsError "phase must be one of: thinking, tool_call, analysis"].
Proof.
  unfold validateInput, throw, ret.
  repeat match goal with
         | |- context [if ?b then _ else _] => destruct b
         end; intros [= <- _]; cbn; tauto.
Qed.

Lemma dispatchPhase_throws input s e s' :
  dispatchPhase executor input s = (Throw e, s') ->
  s' = s
  /\ In e [JsError "toolCall is required for tool_call phase";
           JsError "Tool call limit reached"].
Proof.
  destruct (phaseIs input "tool_call") eqn:Hp.
  - rewrite phaseIs_decide in Hp. apply bool_decide_eq_true in Hp.
    destruct (toolCall input) as [tc|] eqn:Ht.
    + rewrite (dispatchPhase_tool_call _ _ _ _ Hp Ht).
      destruct (executeToolCall executor tc s) as [[r|e0] s0] eqn:He; [discriminate|].
      intros [= <- <-]. destruct (executeToolCall_throws _ _ _ _ _ He) as (-> & _ & ->).
      cbn. tauto.
    + rewrite (dispatchPhase_missing _ _ _ Hp Ht). intros [= <- <-]. cbn. tauto.
  - destruct (dispatchPhase_plain executor input s Hp) as [l ->]. discriminate.
Qed.

Lemma addStep_throws step s e s' :
  addStep step s = (Throw e, s') ->
  e = JsError "this.branches[step.branchId].push is not a function"
  /\ Js.truthy_num (branchFromStep step) = true
  /\ exists id, branchId step = Some id /\ inheritedKey id = true.
Proof.
  unfold addStep. unfold_monad.
  destruct (Js.truthy_num (branchFromStep step)) eqn:Hf; [|discriminate].
  destruct (branchId step) as [id|] eqn:Hb; [|discriminate]. cbn -[inheritedKey].
  destruct (negb (String.eqb id EmptyString)); [|discriminate]. cbn -[inheritedKey].
  destruct (inheritedKey id) eqn:Hi; [|discriminate].
  intros [= <- _]. eauto.
Qed.

(** X3: whatever the executor, an error answer of [processStep] is one
    of seven payloads: the four validation messages, the missing tool
    call, the spent budget and the failed registration of a branch. None
    has the error type "TimeoutError": a tool that times out is reported
    in a successful answer, never as a failed step. *)
Theorem X3_error_answers input s r s' :
  processStep executor input s = (Return r, s') ->
  isError r = Some true ->
  In r [errorEnvelope "Error" "stepNumber must be a positive integer"
          "Check input parameters and try again";
        errorEnvelope "Error" "totalSteps must be a positive integer"
          "Check input parameters and try again";
        errorEnvelope "ValidationError" "nextStepNeeded is required"
          "Provide all required fields";
        errorEnvelope "Error" "phase must be one of: thinking, tool_call, analysis"
          "Check input parameters and try again";
        errorEnvelope "ValidationError" "toolCall is required for tool_call phase"
          "Provide all required fields";
        errorEnvelope "ToolCallLimitError" "Tool call limit reached"
          "Summarize progress and terminate or reset the server";
        errorEnvelope "Error" "this.branches[step.branchId].push is not a function"
          "Check input parameters and try again"]
  /\ forall payload status,
       content r = [("text", ErrorPayload payload status)] ->
       type payload <> "TimeoutError".
Proof.
  intros H Herr.
  assert (Hin : exists e,
             r = handleError e
             /\ In e [JsError "stepNumber must be a positive integer";
                      JsError "totalSteps must be a positive integer";
                      JsError "nextStepNeeded is required";
                      JsError "phase must be one of: thinking, tool_call, analysis";
                      JsError "toolCall is required for tool_call phase";
                      JsError "Tool call limit reached";
                      JsError "this.branches[step.branchId].push is not a function"]).
  { rewrite processStep_eq in H.
    destruct (validateInput input s) as [[[]|e] s0] eqn:Hv.
    - destruct (dispatchPhase _ _ _) as [[d|e] s1] eqn:Hd.
      + destruct (addStep (fst d) s1) as [[[]|e] s2] eqn:Ha.
        * injection H as <- <-. discriminate.
        * injection H as <- <-. exists e. split; [reflexivity|].
          destruct (addStep_throws _ _ _ _ Ha) as (-> & _). cbn. tauto.
      + injection H as <- <-. exists e. split; [reflexivity|].
        destruct (dispatchPhase_throws _ _ _ _ Hd) as (_ & [<-|[<-|[]]]); cbn; tauto.
    - injection H as <- <-. exists e. split; [reflexivity|].
      pose proof (validateInput_throws _ _ _ _ Hv) as Hi. cbn in Hi |- *. tauto. }
  destruct Hin as (e & -> & Hin).
  cbn in Hin.
  repeat (destruct Hin as [<-|Hin]; [split; [cbn; tauto|intros ? ? [= <- _]; discriminate]|]).
  destruct Hin.
Qed.


End ErrorsAndGrowth.

(** A missing tool call is one of the seven error answers. *)
Lemma X3_witness :
  In (errorEnvelope "ValidationError" "toolCall is required for tool_call phase"
        "Provide all required fields")
     [errorEnvelope "Error" "stepNumber must be a positive integer"
        "Check input parameters and try again";
      errorEnvelope "Error" "totalSteps must be a positive integer"
        "Check input parameters and try again";
      errorEnvelope "ValidationError" "nextStepNeeded is required"
        "Provide all required fields";
      errorEnvelope "Error" "phase must be one of: thinking, tool_call, analysis"
        "Check input parameters and try again";
      errorEnvelope "ValidationError" "toolCall is required for tool_call phase"
        "Provide all required fields";
      errorEnvelope "ToolCallLimitError" "Tool call limit reached"
        "Summarize progress and terminate or reset the server";
      errorEnvelope "Error" "this.branches[step.branchId].push is not a function"
        "Check input parameters and try again"].
Proof.
  destruct (X3_error_answers simulateToolExecution
              (Sample.step 1 3 (Some "tool_call") None) Sample.fresh _ _
              (surjective_pairing _) eq_refl) as [H _].
  exact H.
Defined.

Section Normalisation.

Lemma setPhase_same input p : phase input = Some p -> setPhase (Some p) input = input.
Proof. destruct input. cbn. now intros ->. Qed.

Lemma setTotalSteps_same input t :
  totalSteps input = Some t -> setTotalSteps (Some t) input = input.
Proof. destruct input. cbn. now intros ->. Qed.

Lemma inferPhase_listed sm input :
  Js.truthy_str (phase input) = false ->
  In (inferPhase sm input) ["thinking"; "tool_call"; "analysis"].
Proof.
  intros H. unfold inferPhase. rewrite H.
  destruct (bool_decide _); [cbn; tauto|].
  destruct (getStep _ _) as [l|]; [|cbn; tauto].
  destruct (phaseIs l "tool_call"); cbn; tauto.
Qed.

(** The step that reaches the [switch]: the incoming step with its phase
    made concrete and its [totalSteps] raised to its [stepNumber]. *)
Lemma normalised_step sm input s :
  validateInput input s = (Return tt, s) ->
  exists (n total : Js.number) p,
    stepNumber input = Some n /\ totalSteps input = Some total
    /\ (1 <= n)%Q /\ (1 <= total)%Q
    /\ is_Some (nextStepNeeded input)
    /\ In p ["thinking"; "tool_call"; "analysis"]
    /\ (Js.truthy_str (phase input) = true -> phase input = Some p)
    /\ (Js.truthy_str (phase input) = false -> p = inferPhase sm input)
    /\ adjustTotalSteps (resolvePhase sm input)
       = setTotalSteps (Some (Qmax total n)) (setPhase (Some p) input).
Proof.
  intros Hv.
  apply validateInput_accepted in Hv
    as ((n & Hn & Hn1) & (total & Ht & Ht1) & Hnext & Hphase).
  assert (Hp : exists p,
             In p ["thinking"; "tool_call"; "analysis"]
             /\ (Js.truthy_str (phase input) = true -> phase input = Some p)
             /\ (Js.truthy_str (phase input) = false -> p = inferPhase sm input)
             /\ resolvePhase sm input = setPhase (Some p) input).
  { unfold resolvePhase.
    destruct Hphase as [Hp|[Hp|(p & Hp & Hin)]].
    - exists (inferPhase sm input). rewrite Hp. cbn.
      split; [apply inferPhase_listed; now rewrite Hp|].
      split; [discriminate|]. split; reflexivity.
    - exists (inferPhase sm input). rewrite Hp. cbn.
      split; [apply inferPhase_listed; now rewrite Hp|].
      split; [discriminate|]. split; reflexivity.
    - exists p. rewrite Hp.
      assert (Htr : Js.truthy_str (Some p) = true).
      { cbn in Hin. destruct Hin as [<-|[<-|[<-|[]]]]; reflexivity. }
      rewrite Htr. cbn.
      split; [exact Hin|]. split; [reflexivity|]. split; [discriminate|].
      symmetry. now apply setPhase_same. }
  destruct Hp as (p & Hin & Hp1 & Hp2 & Hr).
  exists n, total, p. repeat split; try assumption.
  rewrite Hr. unfold adjustTotalSteps, Js.gt, Js.lt. cbn. rewrite Hn, Ht.
  unfold Qmax, GenericMinMax.gmax.
  destruct (total ?= n)%Q; try reflexivity.
  all: symmetry; now apply setTotalSteps_same.
Qed.

Lemma pushBranch_keys id step branches :
  map fst (pushBranch id step branches)
  = if existsb (String.eqb id) (map fst branches)
    then map fst branches
    else (map fst branches ++ [id])%list.
Proof.
  induction branches as [|[k l] rest IH]; [reflexivity|]. cbn.
  rewrite (String.eqb_sym id k).
  destruct (String.eqb k id); cbn; [reflexivity|]. now rewrite IH; destruct (existsb _ _).
Qed.

Lemma pushBranch_In id step branches k bucket :
  In (k, bucket) (pushBranch id step branches) ->
  In (k, bucket) branches
  \/ (k = id /\ exists before,
         bucket = (before ++ [step])%list
         /\ (In (id, before) branches \/ before = [])).
Proof.
  induction branches as [|[k0 l0] rest IH]; cbn.
  - intros [[= <- <-]|[]]. right. split; [reflexivity|]. exists []. auto.
  - destruct (String.eqb_spec k0 id) as [->|Hne]; cbn.
    + intros [[= <- <-]|Hin]; [|left; auto].
      right. split; [reflexivity|]. exists l0. auto.
    + intros [[= <- <-]|Hin]; [left; auto|].
      destruct (IH Hin) as [H|(-> & before & -> & H)]; [left; auto|].
      right. split; [reflexivity|]. exists before. split; [reflexivity|]. tauto.
Qed.

Lemma pushBranch_registers id step branches :
  exists before, In (id, (before ++ [step])%list) (pushBranch id step branches).
Proof.
  induction branches as [|[k0 l0] rest IH]; cbn.
  - exists []. now left.
  - destruct (String.eqb_spec k0 id) as [->|Hne]; cbn.
    + exists l0. now left.
    + destruct IH as [before H]. exists before. now right.
Qed.

Lemma existsb_eqb_In id (keys : list string) :
  existsb (String.eqb id) keys = true <-> In id keys.
Proof.
  rewrite existsb_exists. split.
  - intros (k & Hin & Heq). apply String.eqb_eq in Heq. now subst.
  - intros Hin. exists id. split; [exact Hin|apply String.eqb_refl].
Qed.

End Normalisation.

Section Stored.

Variable executor : ToolCallData -> Execution.

(** Everything [processStep] does to the session when it does not refuse
    the step. *)
Lemma processStep_stored input s :
  snd (processStep executor input s) = s
  \/ exists stored,
      wellFormedStep stored
      /\ stepNumber stored = stepNumber input
      /\ branchFromStep stored = branchFromStep input
      /\ branchId stored = branchId input
      /\ StateManager.steps (stateManager (snd (processStep executor input s)))
         = (StateManager.steps (stateManager s) ++ [stored])%list
      /\ StateManager.branches (stateManager (snd (processStep executor input s)))
         = (if Js.truthy_num (branchFromStep input) && Js.truthy_str (branchId input)
               && negb (inheritedKey (default EmptyString (branchId input)))
            then pushBranch (default EmptyString (branchId input)) stored
                   (StateManager.branches (stateManager s))
            else StateManager.branches (stateManager s))
      /\ ((phaseIs stored "tool_call" = false
           /\ StateManager.toolCalls (stateManager (snd (processStep executor input s)))
              = StateManager.toolCalls (stateManager s)
           /\ toolCallManager (snd (processStep executor input s)) = toolCallManager s)
          \/ (phaseIs stored "tool_call" = true
              /\ canExecuteToolCall (toolCallManager s) = true
              /\ (exists record,
                     recordOf stored = Some record
                     /\ StateManager.toolCalls
                          (stateManager (snd (processStep executor input s)))
                        = (StateManager.toolCalls (stateManager s) ++ [record])%list)
              /\ ToolCallManager.callCount
                   (toolCallManager (snd (processStep executor input s)))
                 = ToolCallManager.callCount (toolCallManager s) + 1
              /\ ToolCallManager.maxToolCalls
                   (toolCallManager (snd (processStep executor input s)))
                 = ToolCallManager.maxToolCalls (toolCallManager s))).
Proof.
  destruct (processStep_commit executor input s) as [Hs|(d & s1 & Hv & Hd & Hs)];
    [now left|right].
  rewrite Hs.
  destruct (normalised_step (stateManager s) input s Hv)
    as (n & total & p & Hn & Ht & Hn1 & Ht1 & Hnext & Hin & _ & _ & Hnorm).
  rewrite Hnorm in Hd.
  destruct (addStep_steps (fst d) s1) as (Hsteps & Hcalls & Hman & _).
  pose proof (addStep_branches (fst d) s1) as Hbr. cbv zeta in Hbr.
  rewrite Hsteps, Hcalls, Hman, Hbr.
  assert (Hmax : (n <= Qmax total n)%Q) by apply Q.le_max_r.
  destruct (dispatchPhase_effect _ _ _ _ _ Hd)
    as [(Hp & Hfst & _ & ->)|(tc & r & s0 & Hp & Htc & He & Hfst & _ & ->)].
  - exists (fst d). rewrite Hfst. cbn.
    split; [|repeat split; try reflexivity; now left].
    split; [exists n, (Qmax total n); auto|]. split; [exact Hnext|].
    split; [eauto|]. intros [= ->]. discriminate.
  - destruct (executeToolCall_frame _ _ _ _ _ He)
      as (Hc & Hsm & _ & Hmx & _ & _ & _ & Hcc).
    exists (fst d). rewrite Hfst. unfold addToolCall, modify. cbn. rewrite Hsm.
    cbn in Htc, Hp. injection Hp as ->.
    split.
    { split; [exists n, (Qmax total n); auto|]. split; [exact Hnext|].
      split; [eauto|]. intros _. cbn. rewrite Htc. split; eauto. }
    repeat split; try reflexivity. right.
    split; [reflexivity|]. split; [exact Hc|]. split; [|split; assumption].
    eexists. split; [|reflexivity]. unfold recordOf. cbn. now rewrite Htc.
Qed.

End Stored.

Section Invariants.

Variable executor : ToolCallData -> Execution.

Lemma branchesIndexSteps_grow sm stored register :
  branchesIndexSteps sm ->
  (register = true ->
   branchId stored = Some (default EmptyString (branchId stored))
   /\ inheritedKey (default EmptyString (branchId stored)) = false) ->
  branchesIndexSteps
    {| StateManager.steps := (StateManager.steps sm ++ [stored])%list;
       StateManager.branches :=
         if register
         then pushBranch (default EmptyString (branchId stored)) stored
                (StateManager.branches sm)
         else StateManager.branches sm;
       StateManager.toolCalls := StateManager.toolCalls sm |}.
Proof.
  intros [Hnd Hall] Hreg. unfold branchesIndexSteps. cbn.
  destruct register.
  - destruct (Hreg eq_refl) as [Hid Hinh].
    set (id := default EmptyString (branchId stored)) in *.
    split.
    + rewrite pushBranch_keys.
      destruct (existsb (String.eqb id) (map fst (StateManager.branches sm))) eqn:E;
        [exact Hnd|].
      apply NoDup_app. split; [exact Hnd|]. split; [|apply NoDup_singleton].
      intros k Hk Hk'. apply list_elem_of_In in Hk. apply list_elem_of_In in Hk'.
      destruct Hk' as [<-|[]].
      apply existsb_eqb_In in Hk. congruence.
    + intros k bucket Hin.
      destruct (pushBranch_In _ _ _ _ _ Hin) as [Hold|(-> & before & -> & Hbefore)].
      * destruct (Hall _ _ Hold) as (Hi & Hne & Hsteps).
        split; [exact Hi|]. split; [exact Hne|].
        intros step Hstep. destruct (Hsteps _ Hstep) as [Hs Hb].
        split; [apply in_or_app; now left|exact Hb].
      * split; [exact Hinh|]. split; [now destruct before|].
        intros step Hstep. apply in_app_or in Hstep as [Hstep|[<-|[]]].
        -- destruct Hbefore as [Hb| ->]; [|destruct Hstep].
           destruct (Hall _ _ Hb) as (_ & _ & Hsteps).
           destruct (Hsteps _ Hstep) as [Hs Hbid].
           split; [apply in_or_app; now left|exact Hbid].
        -- split; [apply in_or_app; right; now left|exact Hid].
  - split; [exact Hnd|].
    intros k bucket Hin. destruct (Hall _ _ Hin) as (Hi & Hne & Hsteps).
    split; [exact Hi|]. split; [exact Hne|].
    intros step Hstep. destruct (Hsteps _ Hstep) as [Hs Hb].
    split; [apply in_or_app; now left|exact Hb].
Qed.

Lemma truthy_str_default (v : option string) :
  Js.truthy_str v = true -> v = Some (default EmptyString v).
Proof. now destruct v. Qed.

Lemma processStep_invariant input s :
  sessionInvariant s -> sessionInvariant (snd (processStep executor input s)).
Proof.
  intros Hinv. pose proof Hinv as (Hwf & Hlog & Hbr & Hb0 & Hb1 & Hb2).
  destruct (processStep_stored executor input s)
    as [->|(stored & Hst & _ & Hbf & Hbi & Hsteps & Hbranches & Hcase)];
    [exact Hinv|].
  set (s' := snd (processStep executor input s)) in *.
  split; [|split; [|split]].
  - rewrite Hsteps. apply Forall_app. split; [exact Hwf|now apply Forall_singleton].
  - unfold logMirrorsSteps in *. rewrite Hsteps, List.filter_app, !map_app. cbn.
    destruct Hcase as [(Hp & -> & _)|(Hp & _ & (record & Hrec & ->) & _)]; rewrite Hp; cbn.
    + now rewrite app_nil_r.
    + now rewrite map_app, Hlog, Hrec.
  - pose proof (branchesIndexSteps_grow (stateManager s) stored
                  (Js.truthy_num (branchFromStep input) && Js.truthy_str (branchId input)
                   && negb (inheritedKey (default EmptyString (branchId input)))) Hbr) as Hg.
    rewrite Hbi in Hg.
    unfold branchesIndexSteps in *. rewrite Hsteps, Hbranches. apply Hg.
    intros Hreg. apply andb_true_iff in Hreg as [Hreg Hinh].
    apply andb_true_iff in Hreg as [_ Hstr].
    split; [now apply truthy_str_default|]. now apply negb_true_iff.
  - unfold withinBudget.
    destruct Hcase as [(_ & -> & ->)|(_ & Hc & (record & _ & ->) & -> & ->)];
      [exact (conj Hb0 (conj Hb1 Hb2))|].
    unfold canExecuteToolCall in Hc. apply Z.ltb_lt in Hc.
    rewrite length_app. cbn. lia.
Qed.

Lemma executeToolCall_invariant toolCall s :
  sessionInvariant s -> sessionInvariant (snd (executeToolCall executor toolCall s)).
Proof.
  intros Hinv. pose proof Hinv as (Hwf & Hlog & Hbr & Hb0 & Hb1 & Hb2).
  destruct (executeToolCall executor toolCall s) as [[r|e] s'] eqn:He.
  - destruct (executeToolCall_frame _ _ _ _ _ He) as (Hc & Hsm & _ & Hmx & _ & _ & _ & Hcc).
    unfold sessionInvariant, withinBudget. cbn. rewrite Hsm, Hmx, Hcc.
    unfold canExecuteToolCall in Hc. apply Z.ltb_lt in Hc.
    split; [exact Hwf|]. split; [exact Hlog|]. split; [exact Hbr|]. lia.
  - destruct (executeToolCall_throws _ _ _ _ _ He) as (_ & _ & ->). exact Hinv.
Qed.

Lemma reachable_invariant s : reachable executor s -> sessionInvariant s.
Proof.
  induction 1 as [partial now|s input _ IH|s tc _ IH|s _ IH|s mocks _ IH|s dt _ IH _].
  - split; [constructor|]. split; [reflexivity|].
    split; [split; [constructor|intros id bucket []]|].
    unfold withinBudget. cbn. lia.
  - now apply processStep_invariant.
  - now apply executeToolCall_invariant.
  - split; [constructor|]. split; [reflexivity|].
    split; [split; [constructor|intros id bucket []]|].
    unfold withinBudget. cbn. lia.
  - exact IH.
  - exact IH.
Qed.

End Invariants.

Section HistoryClaims.

Variable executor : ToolCallData -> Execution.

(** X5: every step found in the history of a reachable session is
    complete: its [stepNumber] is at least 1, its [totalSteps] is at
    least its [stepNumber], it has a [nextStepNeeded], its phase is one
    of the three phase names, and a [tool_call] step carries both its
    tool call and the result of that call. *)
Theorem X5_stored_steps_are_complete s step :
  reachable executor s ->
  In step (StateManager.steps (stateManager s)) ->
  (exists n total,
      stepNumber step = Some n /\ totalSteps step = Some total
      /\ (1 <= n)%Q /\ (n <= total)%Q)
  /\ is_Some (nextStepNeeded step)
  /\ (exists p, phase step = Some p /\ In p ["thinking"; "tool_call"; "analysis"])
  /\ (phase step = Some "tool_call" -> is_Some (toolCall step) /\ is_Some (toolResult step)).
Proof.
  intros Hr Hin. destruct (reachable_invariant _ _ Hr) as (Hwf & _).
  rewrite Forall_forall in Hwf. apply Hwf. now apply list_elem_of_In.
Qed.


(** X7: in a reachable session the call counter lies between 0 and the
    budget (a negative budget counting as 0), and the history never holds
    more tool call records than calls were counted; in particular it
    never holds more than the budget. *)
Theorem X7_budget_bounds_the_log s :
  reachable executor s ->
  0 <= ToolCallManager.callCount (toolCallManager s)
       <= Z.max 0 (ToolCallManager.maxToolCalls (toolCallManager s))
  /\ Z.of_nat (totalToolCalls (statistics (getHistoryOf (stateManager s))))
     <= ToolCallManager.callCount (toolCallManager s)
  /\ Z.of_nat (totalToolCalls (statistics (getHistoryOf (stateManager s))))
     <= Z.max 0 (ToolCallManager.maxToolCalls (toolCallManager s)).
Proof.
  intros Hr. destruct (reachable_invariant _ _ Hr) as (_ & _ & _ & H0 & H1 & H2).
  cbn. lia.
Qed.

Lemma insertIndex_Permutation i name sorted :
  Permutation (map snd (Js.insertIndex i name sorted)) (name :: map snd sorted).
Proof.
  induction sorted as [|[j other] rest IH]; [reflexivity|]. cbn.
  destruct (i <? j)%N; [reflexivity|]. cbn. rewrite IH. apply perm_swap.
Qed.

(** [Object.keys] lists the names of the own properties, each once. *)
Lemma objectKeys_Permutation names : Permutation (Js.objectKeys names) names.
Proof.
  unfold Js.objectKeys. induction names as [|name rest IH]; [reflexivity|]. cbn.
  destruct (Js.arrayIndex name) as [i|]; cbn.
  - rewrite insertIndex_Permutation. cbn. now rewrite IH.
  - rewrite <- Permutation_middle. now rewrite IH.
Qed.

(** X8: a reachable session that accepts a step stores it as the last
    step of the history and answers with the names of the branches, each
    once. When the step has a non-zero [branchFromStep] and a [branchId]
    that is not the empty string and no property name of
    [Object.prototype], it becomes at once the last step of the bucket of
    that branch, and the answer lists that name. When [branchFromStep] is
    absent or zero, or [branchId] is absent or the empty string, the step
    is registered in no bucket: the branches stay as they were. *)
Theorem X8_branch_registration input s r s' :
  reachable executor s ->
  processStep executor input s = (Return r, s') ->
  isError r = None ->
  exists response stored,
    content r = [("text", SuccessPayload response)]
    /\ NoDup (responseBranches response)
    /\ (forall id, In id (responseBranches response)
                   <-> In id (map fst (StateManager.branches (stateManager s'))))
    /\ last (StateManager.steps (stateManager s')) = Some stored
    /\ stepNumber stored = stepNumber input
    /\ (forall id,
          Js.truthy_num (branchFromStep input) = true ->
          branchId input = Some id -> id <> EmptyString -> inheritedKey id = false ->
          In id (responseBranches response)
          /\ exists before,
               In (id, (before ++ [stored])%list) (StateManager.branches (stateManager s')))
    /\ (Js.truthy_num (branchFromStep input) = false
        \/ branchId input = None \/ branchId input = Some EmptyString ->
        StateManager.branches (stateManager s') = StateManager.branches (stateManager s)).
Proof.
  intros Hr H Hok.
  destruct (processStep_success _ _ _ _ _ H Hok) as (_ & d & s1 & Hd & -> & Hlast).
  destruct (dispatchPhase_returns _ _ _ _ _ Hd) as (_ & _ & _ & Hk).
  assert (Hs' : snd (processStep executor input s) = s') by now rewrite H.
  destruct (reachable_invariant _ _ (reachable_processStep _ _ input Hr))
    as (_ & _ & [Hnd _] & _).
  rewrite Hs' in Hnd.
  destruct (processStep_stored executor input s)
    as [Hsame|(stored & _ & Hsn & _ & _ & Hsteps & Hbr & _)].
  { rewrite Hs' in Hsame. rewrite Hsame, Hk in Hlast.
    apply (f_equal (@length _)) in Hlast. rewrite length_app in Hlast.
    cbn in Hlast. lia. }
  rewrite Hs' in Hsteps, Hbr.
  pose proof (objectKeys_Permutation (map fst (StateManager.branches (stateManager s'))))
    as Hkeys.
  assert (Hlisted : forall id,
             In id (Js.objectKeys (map fst (StateManager.branches (stateManager s'))))
             <-> In id (map fst (StateManager.branches (stateManager s')))).
  { intros id. split; apply Permutation_in; [exact Hkeys|now symmetry]. }
  eexists _, stored. split; [reflexivity|]. cbn -[inheritedKey].
  split; [rewrite Hkeys; exact Hnd|].
  split; [exact Hlisted|].
  split; [rewrite Hsteps; apply last_snoc|]. split; [exact Hsn|]. split.
  - intros id Hf Hid Hne Hinh.
    assert (Hstr : Js.truthy_str (branchId input) = true).
    { rewrite Hid. cbn. destruct (String.eqb_spec id EmptyString); [contradiction|reflexivity]. }
    rewrite Hf, Hstr, Hid in Hbr. cbn -[inheritedKey] in Hbr. rewrite Hinh in Hbr. cbn in Hbr.
    destruct (pushBranch_registers id stored (StateManager.branches (stateManager s)))
      as [before Hin].
    rewrite <- Hbr in Hin. split; [|now exists before].
    apply Hlisted. now apply (in_map fst) in Hin.
  - intros Hnone.
    replace (Js.truthy_num (branchFromStep input) && Js.truthy_str (branchId input))
      with false in Hbr; [exact Hbr|].
    destruct Hnone as [->|[->| ->]]; [reflexivity| |]; now rewrite andb_false_r.
Qed.

(** X9: a step that passes validation, is no [tool_call] step, has a
    non-zero [branchFromStep] and names as [branchId] a property of
    [Object.prototype] (such as "constructor") is answered with an
    error payload of the generic type "Error", and is nevertheless
    appended to the history. *)
Theorem X9_inherited_branch_name_is_stored_and_refused input id s :
  validateInput input s = (Return tt, s) ->
  toolCall input = None -> phase input <> Some "tool_call" ->
  Js.truthy_num (branchFromStep input) = true ->
  branchId input = Some id -> inheritedKey id = true ->
  exists stored s',
    processStep executor input s
    = (Return (errorEnvelope "Error" "this.branches[step.branchId].push is not a function"
                 "Check input parameters and try again"), s')
    /\ StateManager.steps (stateManager s')
       = (StateManager.steps (stateManager s) ++ [stored])%list
    /\ stepNumber stored = stepNumber input
    /\ thought stored = thought input.
Proof.
  intros Hv Htc Hp Hf Hid Hinh.
  destruct (normalised_step (stateManager s) input s Hv)
    as (n & total & p & Hn & Ht & _ & _ & _ & Hin & Hp1 & Hp2 & Hnorm).
  assert (Hnot : p <> "tool_call").
  { destruct (Js.truthy_str (phase input)) eqn:E.
    - rewrite (Hp1 eq_refl) in Hp. congruence.
    - rewrite (Hp2 eq_refl). unfold inferPhase. rewrite E, Htc. cbn.
      destruct (getStep _ _) as [l|]; [|discriminate].
      destruct (phaseIs l "tool_call"); discriminate. }
  rewrite processStep_eq, Hv, Hnorm.
  set (stored := setTotalSteps (Some (Qmax total n)) (setPhase (Some p) input)).
  assert (Hplain : phaseIs stored "tool_call" = false).
  { unfold phaseIs. cbn. destruct (String.eqb_spec p "tool_call"); congruence. }
  destruct (dispatchPhase_plain executor stored s Hplain) as [l ->]. cbn -[addStep handleError].
  pose proof (addStep_steps stored s) as (Hsteps & _).
  destruct (addStep stored s) as [[[]|e] s'] eqn:Ha.
  - exfalso. unfold addStep in Ha. unfold_monad. cbn -[inheritedKey] in Ha.
    rewrite Hf, Hid in Ha. cbn -[inheritedKey] in Ha. rewrite Hinh in Ha.
    destruct (negb (String.eqb id EmptyString)) eqn:E; [discriminate|].
    apply negb_false_iff, String.eqb_eq in E. subst id. discriminate.
  - destruct (addStep_throws _ _ _ _ Ha) as (-> & _).
    exists stored, s'. split; [reflexivity|]. cbn in Hsteps. auto.
Qed.

End HistoryClaims.

(** The tool call step stored in the sample session carries its result. *)
Lemma X5_witness : is_Some (toolResult Scenario.storedCall).
Proof.
  destruct (X5_stored_steps_are_complete simulateToolExecution Scenario.afterCall
              Scenario.storedCall Scenario.afterCall_reachable
              ltac:(vm_compute; auto)) as (_ & _ & _ & H).
  exact (proj2 (H eq_refl)).
Defined.


Lemma X7_witness :
  Z.of_nat (totalToolCalls (statistics (getHistoryOf (stateManager Scenario.afterCall))))
  <= 50.
Proof.
  destruct (X7_budget_bounds_the_log simulateToolExecution Scenario.afterCall
              Scenario.afterCall_reachable) as (_ & _ & H).
  exact H.
Defined.

(** A step of branch "b1" is answered with "b1" among the branches. *)
Lemma X8_witness :
  exists response,
    content (match fst (processStep simulateToolExecution (Scenario.branching 2 "b1")
                     Scenario.afterThought) with
             | Return r => r
             | Throw e => handleError e
             end)
    = [("text", SuccessPayload response)]
    /\ In "b1" (responseBranches response).
Proof.
  destruct (X8_branch_registration simulateToolExecution (Scenario.branching 2 "b1")
              Scenario.afterThought _ _ Scenario.afterThought_reachable
              (surjective_pairing _) eq_refl)
    as (response & stored & Hc & _ & _ & _ & _ & Hin & _).
  exists response. split; [exact Hc|].
  exact (proj1 (Hin "b1" eq_refl eq_refl ltac:(discriminate) eq_refl)).
Defined.

(** A step of a branch named "constructor" is refused and stored. *)
Lemma X9_witness :
  exists r s',
    processStep simulateToolExecution (Scenario.branching 1 "constructor") Sample.fresh
    = (Return r, s')
    /\ isError r = Some true
    /\ length (StateManager.steps (stateManager s')) = 1%nat.
Proof.
  destruct (X9_inherited_branch_name_is_stored_and_refused simulateToolExecution
              (Scenario.branching 1 "constructor") "constructor" Sample.fresh
              eq_refl eq_refl ltac:(discriminate) eq_refl eq_refl eq_refl)
    as (stored & s' & H & Hs & _).
  eexists _, s'. split; [exact H|]. split; [reflexivity|].
  rewrite Hs. reflexivity.
Defined.

Section StatisticsAndCache.

Variable executor : ToolCallData -> Execution.

Lemma countResult_fold (cache : gmap string ToolResultData) :
  (forall key r, cache !! key = Some r -> success r = true) ->
  let acc := map_fold (fun _ result acc => countResult result acc) (0%nat, 0%nat, 0) cache in
  fst (fst acc) = size cache
  /\ snd (fst acc) = 0%nat
  /\ ((forall key r, cache !! key = Some r -> executionTime r = 0) -> snd acc = 0).
Proof.
  cbv zeta.
  apply (map_fold_weak_ind
           (fun acc (m : gmap string ToolResultData) =>
              (forall key r, m !! key = Some r -> success r = true) ->
              fst (fst acc) = size m
              /\ snd (fst acc) = 0%nat
              /\ ((forall key r, m !! key = Some r -> executionTime r = 0) -> snd acc = 0))).
  - intros _. rewrite map_size_empty. auto.
  - intros i x m [[successes failures] time] Hnone IH Hall.
    assert (Hm : forall key r, m !! key = Some r -> <[i:=x]> m !! key = Some r).
    { intros key r Hl. rewrite lookup_insert_ne; [exact Hl|]. congruence. }
    destruct IH as (IH1 & IH2 & IH3); [intros key r Hl; apply (Hall key), Hm, Hl|].
    cbn in IH1, IH2, IH3. unfold countResult.
    rewrite (Hall i x) by apply lookup_insert_eq. cbn.
    rewrite (map_size_insert_None _ _ _ Hnone).
    split; [now rewrite IH1|]. split; [exact IH2|].
    intros Hzero. rewrite IH3; [|intros key r Hl; apply (Hzero key), Hm, Hl].
    rewrite (Hzero i x) by apply lookup_insert_eq. reflexivity.
Qed.

(** X10: the statistics of the tool call manager are taken from the
    result cache, so in a reachable session they report no failed call at
    all, as many successful calls as there are cached results (not as
    there were calls), and the call counter as total; when the executor
    leaves the execution time to its caller, as the built-in one does,
    the total execution time they report is 0. *)
Theorem X10_manager_statistics_count_the_cache s :
  reachable executor s ->
  ToolCallStatistics.failedCalls (getStatistics (toolCallManager s)) = 0%nat
  /\ ToolCallStatistics.successfulCalls (getStatistics (toolCallManager s))
     = size (ToolCallManager.resultCache (toolCallManager s))
  /\ ToolCallStatistics.totalCalls (getStatistics (toolCallManager s))
     = ToolCallManager.callCount (toolCallManager s)
  /\ ((forall toolCall r, outcome (executor toolCall) = Resolved r -> executionTime r = 0) ->
      ToolCallStatistics.totalExecutionTime (getStatistics (toolCallManager s)) = 0).
Proof.
  intros Hr. pose proof (reachable_cacheIsRaw _ _ Hr) as Hraw.
  destruct (countResult_fold (ToolCallManager.resultCache (toolCallManager s)))
    as (H1 & H2 & H3).
  { intros key r Hl. now destruct (Hraw _ _ Hl). }
  unfold getStatistics.
  destruct (map_fold _ _ _) as [[successes failures] time]. cbn in *.
  split; [exact H2|]. split; [exact H1|]. split; [reflexivity|].
  intros Hzero. apply H3. intros key r Hl.
  destruct (Hraw _ _ Hl) as (_ & tc & _ & Hout). now apply (Hzero tc).
Qed.

Lemma executeToolCall_cache_grows toolCall s key r :
  ToolCallManager.resultCache (toolCallManager s) !! key = Some r ->
  ToolCallManager.resultCache (toolCallManager (snd (executeToolCall executor toolCall s)))
    !! key = Some r.
Proof.
  intros Hl.
  destruct (canExecuteToolCall (toolCallManager s)) eqn:Hc.
  - destruct (mockFor (toolCallManager s) toolCall) as [m|] eqn:Hm.
    { now rewrite (executeToolCall_mock _ _ _ _ Hc Hm). }
    destruct (executeToolCall_inv executor toolCall s Hc Hm)
      as [(c & _ & ->)|(Hk & dt & v & _ & ->)]; [exact Hl|].
    destruct v as [r0|e]; [|exact Hl].
    destruct (ToolCallManager.enableCache (toolCallManager s)) eqn:Hen; [|exact Hl].
    destruct (success r0); [|exact Hl]. cbn.
    unfold cachedFor in Hk. rewrite Hen in Hk.
    rewrite lookup_insert_ne; [exact Hl|]. congruence.
  - now rewrite (executeToolCall_budget _ _ _ Hc).
Qed.

Lemma processStep_manager input s :
  toolCallManager (snd (processStep executor input s)) = toolCallManager s
  \/ exists tc,
      toolCallManager (snd (processStep executor input s))
      = toolCallManager (snd (executeToolCall executor tc s)).
Proof.
  rewrite processStep_eq.
  destruct (validateInput_cases input s) as [Hv|[e Hv]]; rewrite Hv; [|now left].
  pose proof (dispatchPhase_manager executor
                (adjustTotalSteps (resolvePhase (stateManager s) input)) s) as Hd.
  destruct (dispatchPhase _ _ _) as [[d|e] s1]; [|exact Hd].
  pose proof (addStep_steps (fst d) s1) as (_ & _ & Hm & _).
  destruct (addStep (fst d) s1) as [[[]|e] s2]; cbn in *; now rewrite Hm.
Qed.

(** X11: neither [processStep] nor [executeToolCall] ever removes or
    replaces an entry of the result cache: what is cached under a key
    stays cached under it, so the first successful result of a call is the
    one served until [reset]. *)
Theorem X11_cache_entries_persist input toolCall s key r :
  ToolCallManager.resultCache (toolCallManager s) !! key = Some r ->
  ToolCallManager.resultCache (toolCallManager (snd (processStep executor input s)))
    !! key = Some r
  /\ ToolCallManager.resultCache
       (toolCallManager (snd (executeToolCall executor toolCall s))) !! key = Some r.
Proof.
  intros Hl. split; [|now apply executeToolCall_cache_grows].
  destruct (processStep_manager input s) as [->|[tc ->]];
    [exact Hl|now apply executeToolCall_cache_grows].
Qed.

Lemma processStep_steps_prefix input s :
  StateManager.steps (stateManager s)
    `prefix_of` StateManager.steps (stateManager (snd (processStep executor input s))).
Proof.
  destruct (processStep_stored executor input s)
    as [->|(stored & _ & _ & _ & _ & -> & _)]; [reflexivity|now apply prefix_app_r].
Qed.

Lemma find_app_Some {A} (f : A -> bool) l l' x :
  List.find f l = Some x -> List.find f (l ++ l') = Some x.
Proof.
  induction l as [|a l IH]; [discriminate|]. cbn.
  destruct (f a); [trivial|exact IH].
Qed.

(** X12: once a step with a given number is stored, [getStep] returns
    that step for the number whatever is processed afterwards - a later
    step with the same number included - and the phase inferred for a
    step numbered one higher no longer changes. *)
Theorem X12_inference_is_stable other input s previous :
  getStep (stateManager s) (Js.pred (stepNumber input)) = Some previous ->
  getStep (stateManager (snd (processStep executor other s))) (Js.pred (stepNumber input))
  = Some previous
  /\ inferPhase (stateManager (snd (processStep executor other s))) input
     = inferPhase (stateManager s) input.
Proof.
  intros Hg.
  assert (Hg' : getStep (stateManager (snd (processStep executor other s)))
                  (Js.pred (stepNumber input)) = Some previous).
  { destruct (processStep_steps_prefix other s) as [k Hk].
    unfold getStep in *. rewrite Hk. now apply find_app_Some. }
  split; [exact Hg'|]. unfold inferPhase. now rewrite Hg, Hg'.
Qed.

(** X13: a step whose given phase is [thinking] or [analysis] never
    invokes a tool, also when it carries a tool call: the tool call
    manager, the clock, the log of executions and the tool call log are
    left as they were, and the answer to a [thinking] step has no
    [toolResult]. *)
Theorem X13_given_phase_overrides_toolCall input p s :
  phase input = Some p -> p = "thinking" \/ p = "analysis" ->
  toolCallManager (snd (processStep executor input s)) = toolCallManager s
  /\ clock (snd (processStep executor input s)) = clock s
  /\ executed (snd (processStep executor input s)) = executed s
  /\ StateManager.toolCalls (stateManager (snd (processStep executor input s)))
     = StateManager.toolCalls (stateManager s)
  /\ forall r,
       fst (processStep executor input s) = Return r -> isError r = None ->
       exists response,
         content r = [("text", SuccessPayload response)]
         /\ responsePhase response = Some p
         /\ (p = "thinking" -> responseToolResult response = None).
Proof.
  intros Hp Hcase.
  assert (Hne : p <> EmptyString) by (destruct Hcase as [->| ->]; discriminate).
  assert (Hnt : p <> "tool_call") by (destruct Hcase as [->| ->]; discriminate).
  pose proof (resolvePhase_explicit (stateManager s) input p Hp Hne) as Hres.
  destruct (adjustTotalSteps_keeps input) as (Hpa & _).
  assert (Hplain : phaseIs (adjustTotalSteps input) "tool_call" = false).
  { unfold phaseIs. rewrite Hpa, Hp. destruct (String.eqb_spec p "tool_call"); congruence. }
  assert (Hd : forall d s1,
             dispatchPhase executor (adjustTotalSteps input) s = (Return d, s1) ->
             s1 = s /\ fst d = adjustTotalSteps input
             /\ (p = "thinking" -> snd d = None)).
  { intros d s1 Hd.
    destruct (dispatchPhase_effect _ _ _ _ _ Hd)
      as [(_ & Hfst & Hsnd & ->)|(tc & r & s0 & Hp' & _)]; [|congruence].
    split; [reflexivity|]. split; [exact Hfst|].
    intros ->. rewrite Hsnd. unfold phaseIs. now rewrite Hpa, Hp. }
  destruct (processStep_commit executor input s) as [Hs|(d & s1 & _ & Hdisp & Hs)].
  - rewrite Hs. repeat split.
    intros r Hr Hok.
    destruct (processStep executor input s) as [c s'] eqn:E. cbn in Hr, Hs. subst c s'.
    destruct (processStep_success _ _ _ _ _ E Hok) as (_ & d & s1 & Hdisp & -> & _).
    rewrite Hres in Hdisp. destruct (Hd _ _ Hdisp) as (_ & Hfst & Hsnd).
    destruct (dispatchPhase_returns _ _ _ _ _ Hdisp) as (Hpd & _).
    eexists. split; [reflexivity|]. cbn. split; [congruence|].
    intros Ht. now rewrite (Hsnd Ht).
  - rewrite Hres in Hdisp. destruct (Hd _ _ Hdisp) as (-> & Hfst & Hsnd).
    rewrite Hs.
    destruct (addStep_steps (fst d) s) as (_ & Hcalls & Hman & Hclock & Hexec).
    split; [exact Hman|]. split; [exact Hclock|]. split; [exact Hexec|].
    split; [exact Hcalls|].
    intros r Hr Hok.
    destruct (processStep executor input s) as [c s'] eqn:E. cbn in Hr. subst c.
    destruct (processStep_success _ _ _ _ _ E Hok) as (_ & d' & s1' & Hdisp' & -> & _).
    rewrite Hres, Hdisp in Hdisp'. injection Hdisp' as <- <-.
    destruct (dispatchPhase_returns _ _ _ _ _ Hdisp) as (Hpd & _).
    eexists. split; [reflexivity|]. cbn. split; [congruence|].
    intros Ht. now rewrite (Hsnd Ht).
Qed.

(** X14: the statistics of the history always add up: the successful
    and the failed tool calls together are all the recorded tool calls,
    and the steps counted are the steps stored. *)
Theorem X14_history_statistics_add_up sm :
  (successfulToolCalls (calculateStatistics sm) + failedToolCalls (calculateStatistics sm))%nat
  = totalToolCalls (calculateStatistics sm)
  /\ statTotalSteps (statistics (getHistoryOf sm)) = length (historySteps (getHistoryOf sm))
  /\ totalToolCalls (statistics (getHistoryOf sm))
     = length (historyToolCalls (getHistoryOf sm)).
Proof.
  split; [|split; reflexivity]. cbn.
  induction (StateManager.toolCalls sm) as [|record l IH]; [reflexivity|].
  rewrite !filter_cons.
  destruct (success (recordResult record)); cbn.
  - rewrite decide_True by reflexivity. rewrite decide_False by discriminate. cbn. lia.
  - rewrite decide_False by discriminate. rewrite decide_True by reflexivity.
    cbn. lia.
Qed.

End StatisticsAndCache.

Section Composition.

Variable executor : ToolCallData -> Execution.

Lemma find_ext {A} (f g : A -> bool) l :
  (forall a, f a = g a) -> List.find f l = List.find g l.
Proof.
  intros H. induction l as [|a l IH]; [reflexivity|]. cbn. now rewrite H, IH.
Qed.

Lemma find_snoc_None {A} (f : A -> bool) l x :
  List.find f l = None -> List.find f (l ++ [x]) = if f x then Some x else None.
Proof.
  induction l as [|a l IH]; [reflexivity|]. cbn.
  destruct (f a); [discriminate|exact IH].
Qed.

Lemma strict_eq_key (a key : option Js.number) (n : Js.number) :
  Js.strict_eq (Some n) key = true -> Js.strict_eq a key = Js.strict_eq a (Some n).
Proof.
  destruct key as [k|]; [|discriminate]. destruct a as [x|]; [|reflexivity]. cbn.
  intros H. apply Qeq_bool_iff in H.
  destruct (Qeq_bool x n) eqn:E.
  - apply Qeq_bool_iff in E. apply Qeq_bool_iff. now rewrite E.
  - apply Qeq_bool_neq in E. destruct (Qeq_bool x k) eqn:E'; [|reflexivity].
    apply Qeq_bool_iff in E'. exfalso. apply E. now rewrite E'.
Qed.

(** X15: think, call, analyse. When a session that holds no step
    numbered [n] accepts step [n] with a tool call and no phase, a
    following step numbered [n + 1], [n] being a JavaScript number - or
    any step for which the engine's [stepNumber - 1] is [n] - that passes
    validation and has no phase, no tool call and no branch is accepted
    as an [analysis] step, and its answer carries the same [toolResult] -
    success flag and execution time of that call - as the answer to step
    [n]. *)
Theorem X15_call_then_analysis call next tc (n : Js.number) s r1 s1 :
  stepNumber call = Some n -> phase call = None -> toolCall call = Some tc ->
  getStep (stateManager s) (Some n) = None ->
  processStep executor call s = (Return r1, s1) ->
  isError r1 = None ->
  (Js.isDouble n = true /\ stepNumber next = Some (n + 1)%Q)
  \/ Js.strict_eq (Some n) (Js.pred (stepNumber next)) = true ->
  phase next = None -> toolCall next = None ->
  branchId next = None ->
  validateInput next s1 = (Return tt, s1) ->
  exists r2 s2 response1 response2,
    processStep executor next s1 = (Return r2, s2)
    /\ isError r2 = None
    /\ content r1 = [("text", SuccessPayload response1)]
    /\ content r2 = [("text", SuccessPayload response2)]
    /\ responsePhase response1 = Some "tool_call"
    /\ responsePhase response2 = Some "analysis"
    /\ is_Some (responseToolResult response1)
    /\ responseToolResult response2 = responseToolResult response1.
Proof.
  intros Hn Hp Htc Hfresh H1 Hok1 Hnext Hp2 Htc2 Hb2 Hv2.
  assert (Hn2 : Js.strict_eq (Some n) (Js.pred (stepNumber next)) = true).
  { destruct Hnext as [[Hd ->]|Hkey]; [now apply pred_succ|exact Hkey]. }
  (* the tool call step *)
  destruct (processStep_success _ _ _ _ _ H1 Hok1) as (Hv1 & d & s0 & Hd & -> & _).
  assert (Hs1 : s1 = snd (addStep (fst d) s0)).
  { rewrite processStep_eq, Hv1, Hd in H1. apply (f_equal snd) in H1.
    now destruct (addStep (fst d) s0) as [[[]|e] s']. }
  destruct (normalised_step (stateManager s) call s Hv1)
    as (n' & total & p & Hn' & _ & _ & _ & _ & _ & _ & Hinf & Hnorm).
  rewrite Hn in Hn'. injection Hn' as <-.
  assert (Hpc : p = "tool_call").
  { rewrite Hinf by now rewrite Hp. unfold inferPhase. now rewrite Hp, Htc. }
  subst p. rewrite Hnorm in Hd.
  destruct (dispatchPhase_effect _ _ _ _ _ Hd)
    as [(Habs & _)|(tc' & r & s' & _ & _ & He & Hfst & Hsnd & Hs0)]; [discriminate|].
  destruct (executeToolCall_frame _ _ _ _ _ He) as (_ & Hsm & _).
  destruct (addStep_steps (fst d) s0) as (Hsteps & Hcalls & _).
  rewrite <- Hs1 in Hsteps, Hcalls.
  assert (Hsteps1 : StateManager.steps (stateManager s1)
                    = (StateManager.steps (stateManager s) ++ [fst d])%list).
  { rewrite Hsteps, Hs0. unfold addToolCall, modify. cbn. now rewrite Hsm. }
  assert (Hcalls1 : getLastToolResult (stateManager s1) = Some r).
  { unfold getLastToolResult. rewrite Hcalls, Hs0. unfold addToolCall, modify. cbn.
    now rewrite last_snoc. }
  (* the following step *)
  destruct (normalised_step (stateManager s1) next s1 Hv2)
    as (n2 & total2 & p2 & Hn2' & _ & _ & _ & _ & _ & _ & Hinf2 & Hnorm2).
  assert (Hpa : p2 = "analysis").
  { rewrite Hinf2 by now rewrite Hp2. unfold inferPhase. rewrite Hp2, Htc2. cbn -[Js.pred].
    unfold getStep. rewrite Hsteps1.
    rewrite (find_ext _ (fun st => Js.strict_eq (stepNumber st) (Some n)))
      by (intros a; now apply strict_eq_key).
    unfold getStep in Hfresh. rewrite (find_snoc_None _ _ _ Hfresh).
    rewrite Hfst. cbn. rewrite Hn. cbn.
    replace (Qeq_bool n n) with true; [reflexivity|].
    symmetry. apply Qeq_bool_iff. reflexivity. }
  subst p2.
  rewrite processStep_eq, Hv2, Hnorm2.
  set (stored := setTotalSteps (Some (Qmax total2 n2)) (setPhase (Some "analysis") next)).
  assert (Hdisp : dispatchPhase executor stored s1 = (Return (stored, Some r), s1)).
  { unfold dispatchPhase, phaseIs. cbn. unfold_monad. now rewrite Hcalls1. }
  rewrite Hdisp. cbn -[addStep].
  assert (Hadd : addStep stored s1
                 = (Return tt, snd (addStep stored s1))).
  { unfold addStep. unfold_monad. cbn. rewrite Hb2. cbn. now rewrite andb_false_r. }
  rewrite Hadd.
  eexists _, _, _, _. split; [reflexivity|]. split; [reflexivity|].
  split; [reflexivity|]. split; [reflexivity|]. cbn.
  rewrite Hfst, Hsnd. cbn. repeat split. eauto.
Qed.

End Composition.

Lemma includes_eq s search :
  Js.includes s search
  = String.prefix search s
    || match s with
       | EmptyString => false
       | String _ rest => Js.includes rest search
       end.
Proof. now destruct s. Qed.

Lemma includes_skip before s search :
  Js.includes s search = true -> Js.includes (before ++ s) search = true.
Proof.
  intros H. induction before as [|c before IH]; [exact H|].
  change (Js.includes (String c (before ++ s)) search = true).
  rewrite includes_eq, IH. apply orb_true_r.
Qed.

(** The rejection made by [createTimeoutPromise] always passes the test
    for a timeout of the [catch] block. *)
Lemma timeout_message_indicates t :
  indicatesTimeout (JsError ("Tool execution timeout after " ++ Js.ofZ t ++ "ms")) = true.
Proof.
  unfold indicatesTimeout. cbn [instanceofError messageOf andb].
  change ("Tool execution timeout after " ++ Js.ofZ t ++ "ms")
    with ("Tool execution " ++ ("timeout after " ++ Js.ofZ t ++ "ms")).
  apply includes_skip. rewrite includes_eq. reflexivity.
Qed.

(** X16: with the built-in executor an invocation that is executed (no
    mock, no cached result) uses up one call of the budget and has one of
    two outcomes: the successful mock result, naming the tool and echoing
    its parameters, or a failure of type "TimeoutError", which is not
    cached; its message names the timeout in force, and does so by its
    decimal digits when the magnitude of that timeout is at most 2^53. It
    never fails with "ToolExecutionError". *)
Theorem X16_built_in_executor_outcomes toolCall s r s' :
  executeToolCall simulateToolExecution toolCall s = (Return r, s') ->
  mockFor (toolCallManager s) toolCall = None ->
  cachedFor (toolCallManager s) toolCall = None ->
  ToolCallManager.callCount (toolCallManager s')
  = ToolCallManager.callCount (toolCallManager s) + 1
  /\ executed s' = (executed s ++ [toolCall])%list
  /\ ((success r = true
       /\ resultToolName r = toolName toolCall
       /\ result r = Some (JObj [("message", JStr ("Mock result for " ++ toolName toolCall));
                                 ("parameters", JObj (parameters toolCall))])
       /\ error r = None)
      \/ (success r = false
          /\ result r = None
          /\ (exists amount,
                error r = Some
                  {| type := "TimeoutError";
                     message := "Tool execution timeout after " ++ amount ++ "ms";
                     recoveryStrategy := Some "Use simpler tool or increase timeout" |}
                /\ (Z.abs (effectiveTimeout (toolCallManager s) toolCall) <= 2 ^ 53 ->
                    amount = Js.ofZ (effectiveTimeout (toolCallManager s) toolCall)))
          /\ ToolCallManager.resultCache (toolCallManager s')
             = ToolCallManager.resultCache (toolCallManager s))).
Proof.
  intros He Hm Hk.
  destruct (executeToolCall_frame _ _ _ _ _ He) as (Hc & _ & _ & _ & _ & _ & _ & Hcc).
  split; [exact Hcc|].
  rewrite (executeToolCall_run _ _ _ Hc Hm Hk) in He. unfold race in He.
  destruct (Js.timerDelay _ <? duration _).
  - injection He as <- <-. split; [reflexivity|]. right.
    unfold failureResult. rewrite timeout_message_indicates. cbn.
    split; [reflexivity|]. split; [reflexivity|]. split; [|reflexivity].
    eexists. split; [reflexivity|]. intros _. reflexivity.
  - cbn -[Clock.toISOString] in He.
    destruct (ToolCallManager.enableCache (toolCallManager s)); cbn in He;
      injection He as <- <-; (split; [reflexivity|]); left; cbn; auto.
Qed.

(** X17: the box [formatBox] draws is rectangular in code units: its
    five lines, each preceded by a line break, all have the length of the
    longer of header and content plus six, and header and content stand
    in it unabridged, followed by padding. *)
Theorem X17_formatBox_is_rectangular (header content : Logger.str) :
  exists top head middle body bottom padHeader padContent,
    Logger.formatBox header content
    = ([Logger.newline] ++ top ++ [Logger.newline] ++ head ++ [Logger.newline] ++ middle
       ++ [Logger.newline] ++ body ++ [Logger.newline] ++ bottom)%list
    /\ head = ([Logger.vertical; Logger.space] ++ header ++ repeat Logger.space padHeader
               ++ [Logger.space; Logger.vertical])%list
    /\ body = ([Logger.vertical; Logger.space] ++ content ++ repeat Logger.space padContent
               ++ [Logger.space; Logger.vertical])%list
    /\ Forall (fun line => length line
                           = (Nat.max (length header) (length content) + 6)%nat)
         [top; head; middle; body; bottom].
Proof.
  unfold Logger.formatBox, Logger.padEnd.
  set (maxLength := (Nat.max (length header) (length content) + 4)%nat).
  exists ([Logger.topLeft] ++ repeat Logger.horizontal maxLength ++ [Logger.topRight])%list.
  eexists.
  exists ([Logger.midLeft] ++ repeat Logger.horizontal maxLength ++ [Logger.midRight])%list.
  eexists.
  exists ([Logger.bottomLeft] ++ repeat Logger.horizontal maxLength
          ++ [Logger.bottomRight])%list.
  exists (maxLength - 2 - length header)%nat, (maxLength - 2 - length content)%nat.
  split; [|split; [reflexivity|split; [reflexivity|]]].
  - repeat rewrite <- app_assoc. reflexivity.
  - repeat constructor; cbn; rewrite ?length_app, ?repeat_length; cbn;
      rewrite ?length_app, ?repeat_length; cbn; unfold maxLength; lia.
Qed.

(** After one executed tool call the manager reports one successful
    call and no execution time. *)
Lemma X10_witness :
  ToolCallStatistics.successfulCalls (getStatistics (toolCallManager Scenario.afterCall))
  = 1%nat
  /\ ToolCallStatistics.totalExecutionTime
       (getStatistics (toolCallManager Scenario.afterCall)) = 0.
Proof.
  destruct (X10_manager_statistics_count_the_cache simulateToolExecution Scenario.afterCall
              Scenario.afterCall_reachable) as (_ & H & _ & Ht).
  split; [rewrite H; reflexivity|].
  apply Ht. intros toolCall r [= <-]. reflexivity.
Defined.

(** The cached result of "fetch" is still there after a "search". *)
Lemma X11_witness :
  ToolCallManager.resultCache
    (toolCallManager
       (snd (processStep simulateToolExecution
               (Sample.step 3 3 None (Some Scenario.search)) Scenario.afterCall)))
    !! getCacheKey Sample.fetch
  = Some Scenario.fetched.
Proof.
  destruct (X11_cache_entries_persist simulateToolExecution
              (Sample.step 3 3 None (Some Scenario.search)) Scenario.search
              Scenario.afterCall (getCacheKey Sample.fetch) Scenario.fetched) as [H _];
    [reflexivity|exact H].
Defined.

(** Step 2 was a tool call; sending a thinking step numbered 2 again
    does not change that step 3 is inferred to be an analysis. *)
Lemma X12_witness :
  inferPhase
    (stateManager
       (snd (processStep simulateToolExecution (Sample.step 2 3 (Some "thinking") None)
               Scenario.afterCall)))
    (Sample.step 3 3 None None)
  = "analysis".
Proof.
  destruct (X12_inference_is_stable simulateToolExecution
              (Sample.step 2 3 (Some "thinking") None) (Sample.step 3 3 None None)
              Scenario.afterCall Scenario.storedCall) as [_ H];
    [reflexivity|].
  rewrite H. reflexivity.
Defined.

(** A thinking step that carries a tool call executes nothing. *)
Lemma X13_witness :
  executed (snd (processStep simulateToolExecution
                   (Sample.step 2 3 (Some "thinking") (Some Sample.fetch))
                   Scenario.afterThought))
  = [].
Proof.
  destruct (X13_given_phase_overrides_toolCall simulateToolExecution
              (Sample.step 2 3 (Some "thinking") (Some Sample.fetch)) "thinking"
              Scenario.afterThought eq_refl (or_introl eq_refl)) as (_ & _ & H & _).
  rewrite H. reflexivity.
Defined.

(** Step 2 calls "fetch"; step 3 is accepted as its analysis. *)
Lemma X15_witness :
  exists r2 s2 response2,
    processStep simulateToolExecution (Sample.step 3 3 None None) Scenario.afterCall
    = (Return r2, s2)
    /\ content r2 = [("text", SuccessPayload response2)]
    /\ responsePhase response2 = Some "analysis"
    /\ is_Some (responseToolResult response2).
Proof.
  destruct (X15_call_then_analysis simulateToolExecution
              (Sample.step 2 3 None (Some Sample.fetch)) (Sample.step 3 3 None None)
              Sample.fetch 2%Q Scenario.afterThought _ _
              eq_refl eq_refl eq_refl eq_refl (surjective_pairing _) eq_refl
              (or_introl (conj eq_refl eq_refl)) eq_refl eq_refl eq_refl eq_refl)
    as (r2 & s2 & response1 & response2 & H & _ & _ & Hc & _ & Hp & Hsome & Heq).
  exists r2, s2, response2. split; [exact H|]. split; [exact Hc|]. split; [exact Hp|].
  rewrite Heq. exact Hsome.
Defined.

(** The built-in executor loses against a five millisecond timeout. *)
Lemma X16_witness :
  exists r s',
    executeToolCall simulateToolExecution Sample.fetchHurried Sample.fresh = (Return r, s')
    /\ ToolCallManager.callCount (toolCallManager s') = 1
    /\ executed s' = [Sample.fetchHurried].
Proof.
  destruct (X16_built_in_executor_outcomes Sample.fetchHurried Sample.fresh _ _
              (surjective_pairing _) eq_refl eq_refl) as (Hc & He & _).
  eexists _, _. split; [reflexivity|]. split; [exact Hc|exact He].
Defined.

Section MocksAndAnalysis.

Variable executor : ToolCallData -> Execution.

(** X18: a mock result registered for the key of a call is served in
    preference to the result cache and to execution: within the budget
    the call returns the fixture, whatever the cache holds; it uses up one
    call of the budget, starts no execution and leaves cache and clock as
    they were. Once the budget is spent the fixture is refused like any
    other call. *)
Theorem X18_mock_results_come_first toolCall s mocks fixture :
  ToolCallManager.mockResults (toolCallManager s) = Some mocks ->
  mocks !! getCacheKey toolCall = Some fixture ->
  (canExecuteToolCall (toolCallManager s) = true ->
   fst (executeToolCall executor toolCall s) = Return fixture
   /\ ToolCallManager.callCount (toolCallManager (snd (executeToolCall executor toolCall s)))
      = ToolCallManager.callCount (toolCallManager s) + 1
   /\ ToolCallManager.resultCache (toolCallManager (snd (executeToolCall executor toolCall s)))
      = ToolCallManager.resultCache (toolCallManager s)
   /\ executed (snd (executeToolCall executor toolCall s)) = executed s
   /\ clock (snd (executeToolCall executor toolCall s)) = clock s)
  /\ (canExecuteToolCall (toolCallManager s) = false ->
      executeToolCall executor toolCall s = (Throw (JsError "Tool call limit reached"), s)).
Proof.
  intros Hm Hf. split.
  - intros Hc. rewrite (executeToolCall_mock executor toolCall s fixture Hc).
    + repeat split.
    + unfold mockFor. now rewrite Hm.
  - intros Hc. now apply executeToolCall_budget.
Qed.


End MocksAndAnalysis.

(** A fixture registered for "fetch" is returned although "fetch" is
    cached. *)
Lemma X18_witness :
  fst (executeToolCall simulateToolExecution Sample.fetch
         (snd (injectMockResults (<[getCacheKey Sample.fetch := Sample.fixture]> ∅)
                 Scenario.afterCall)))
  = Return Sample.fixture.
Proof.
  destruct (X18_mock_results_come_first simulateToolExecution Sample.fetch
              (snd (injectMockResults (<[getCacheKey Sample.fetch := Sample.fixture]> ∅)
                      Scenario.afterCall))
              (<[getCacheKey Sample.fetch := Sample.fixture]> ∅) Sample.fixture)
    as [H _]; [reflexivity|reflexivity|].
  exact (proj1 (H eq_refl)).
Defined.

